(** * gym-taxifuel: the taxi-with-fuel gridworld MDP

    A shallow embedding of [gym_taxifuel/envs/taxifuel_env.py]: the state
    codec ([encode] / [decode]), the body of the table-building loops of
    [TaxiFuelEnv.__init__], the construction of the transition table
    [P] and of the initial-state distribution, and [render].

    Python integers are unbounded, so they are [Z]; [//] and [%] with a
    positive divisor are [Z.div] and [Z.modulo].  Python exceptions are
    an explicit error monad.  The numpy float64 cells of
    [initial_state_distrib] are binary64 floats, with the kernel's
    primitive IEEE 754 operations; their exact values are read through
    [Prim2SF].  The probability of an outcome is only ever the literal
    [1.0]; it is kept as the rational 1. *)

From Stdlib Require Import ZArith QArith Lia List String Ascii Bool.
From Corelib Require Import PrimFloat SpecFloat FloatOps.
From stdpp Require Import base option list gmap.

Local Open Scope Z_scope.

(** ** Python exceptions as an error monad *)

Inductive exn : Set := AssertionError | IndexError | KeyError | ValueError.

Inductive result (A : Type) : Type :=
| Ok (a : A)
| Raise (e : exn).

Arguments Ok {A} a.
Arguments Raise {A} e.

Definition bind {A B} (m : result A) (f : A -> result B) : result B :=
  match m with
  | Ok a => f a
  | Raise e => Raise e
  end.

Notation "'let*' x ':=' m 'in' k" := (bind m (fun x => k))
  (at level 10, x name, m at level 100, k at level 200, only parsing).

Definition assert (b : bool) : result unit :=
  if b then Ok tt else Raise AssertionError.

Definition is_ok {A} (m : result A) : bool :=
  match m with Ok _ => true | Raise _ => false end.

(** ** Python and numpy primitives used by the source *)

Module Py.

(** [range(n)] *)
Definition range (n : Z) : list Z := map Z.of_nat (seq 0 (Z.to_nat n)).

(** An index into a sequence of length [n]: negative indices count from
    the end, anything else out of range raises [IndexError]. *)
Definition norm_index (n i : Z) : result nat :=
  if (0 <=? i) && (i <? n) then Ok (Z.to_nat i)
  else if (- n <=? i) && (i <? 0) then Ok (Z.to_nat (n + i))
  else Raise IndexError.

(** [l[i]] *)
Definition getitem {A} (l : list A) (i : Z) : result A :=
  let* k := norm_index (Z.of_nat (length l)) i in
  match l !! k with
  | Some x => Ok x
  | None => Raise IndexError
  end.

(** [l[i] = x] on a list or a one-dimensional array *)
Definition setitem {A} (l : list A) (i : Z) (x : A) : result (list A) :=
  let* k := norm_index (Z.of_nat (length l)) i in
  Ok (<[k := x]> l).

(** [a[i, j]] on a two-dimensional array *)
Definition getitem2 {A} (a : list (list A)) (i j : Z) : result A :=
  let* row := getitem a i in
  getitem row j.

(** [x in l] and [l.index(x)] for a list of pairs of integers *)
Definition pair_eqb (x y : Z * Z) : bool :=
  (fst x =? fst y) && (snd x =? snd y).

Definition contains (l : list (Z * Z)) (x : Z * Z) : bool :=
  existsb (pair_eqb x) l.

Fixpoint index_from (l : list (Z * Z)) (x : Z * Z) (k : Z) : result Z :=
  match l with
  | [] => Raise ValueError
  | y :: l' => if pair_eqb y x then Ok k else index_from l' x (k + 1)
  end.

Definition index (l : list (Z * Z)) (x : Z * Z) : result Z :=
  index_from l x 0.

(** [d[k]] on a dict *)
Definition dict_get {V} (d : gmap Z V) (k : Z) : result V :=
  match d !! k with
  | Some v => Ok v
  | None => Raise KeyError
  end.

(** [for x in l: body], threading the loop's state *)
Fixpoint for_ {A S} (l : list A) (body : A -> S -> result S) (s : S)
  : result S :=
  match l with
  | [] => Ok s
  | x :: l' => let* s' := body x s in for_ l' body s'
  end.

End Py.

(** ** The module constant [MAP] *)

Definition MAP : list string :=
  [ "+---------+";
    "|R: |F: :G|";
    "| : | : : |";
    "| : : : : |";
    "| | : | : |";
    "|Y| : |B: |";
    "+---------+" ]%string.

(** ** The state codec *)

Module TaxiFuelEnv.

(** [encode(self, taxi_row, taxi_col, pass_loc, dest_idx, fuel)] *)
Definition encode (taxi_row taxi_col pass_loc dest_idx fuel : Z) : Z :=
  let i := taxi_row in
  let i := i * 5 in
  let i := i + taxi_col in
  let i := i * 5 in
  let i := i + pass_loc in
  let i := i * 4 in
  let i := i + dest_idx in
  let i := i * 11 in
  let i := i + fuel in
  i.

(** [decode(self, i)]: the digits are appended least significant first
    and returned reversed, after the assertion on the last quotient.  The
    reverse iterator the source returns is the list of the values it
    yields. *)
Definition decode (i : Z) : result (list Z) :=
  let out := [] in
  let out := out ++ [i mod 11] in
  let i := i / 11 in
  let out := out ++ [i mod 4] in
  let i := i / 4 in
  let out := out ++ [i mod 5] in
  let i := i / 5 in
  let out := out ++ [i mod 5] in
  let i := i / 5 in
  let out := out ++ [i] in
  let* _ := assert ((0 <=? i) && (i <? 5)) in
  Ok (rev out).

(** *** Constants and attributes set up by [__init__] *)

Definition desc : list (list ascii) := map list_ascii_of_string MAP.
Definition locs : list (Z * Z) := [(0, 0); (0, 4); (4, 0); (4, 3)].
Definition fuel_station : Z * Z := (0, 2).

Definition num_states : Z := 5500.
Definition num_rows : Z := 5.
Definition num_columns : Z := 5.
Definition max_fuel : Z := 10.
Definition max_row : Z := num_rows - 1.
Definition max_col : Z := num_columns - 1.
Definition num_actions : Z := 7.

(** An outcome tuple [(probability, new_state, reward, done)]. *)
Definition outcome : Type := Q * Z * Z * bool.

Definition prob_of (o : outcome) : Q := o.1.1.1.
Definition next_of (o : outcome) : Z := o.1.1.2.
Definition reward_of (o : outcome) : Z := o.1.2.
Definition done_of (o : outcome) : bool := o.2.

(** The local variables one iteration of the action loop assigns. *)
Record locals : Type := Locals {
  new_row : Z; new_col : Z; new_pass_idx : Z; new_fuel : Z;
  reward : Z; done : bool; moved : bool }.

Definition set_new_row v l := Locals v (new_col l) (new_pass_idx l)
  (new_fuel l) (reward l) (done l) (moved l).
Definition set_new_col v l := Locals (new_row l) v (new_pass_idx l)
  (new_fuel l) (reward l) (done l) (moved l).
Definition set_new_pass_idx v l := Locals (new_row l) (new_col l) v
  (new_fuel l) (reward l) (done l) (moved l).
Definition set_new_fuel v l := Locals (new_row l) (new_col l)
  (new_pass_idx l) v (reward l) (done l) (moved l).
Definition set_reward v l := Locals (new_row l) (new_col l)
  (new_pass_idx l) (new_fuel l) v (done l) (moved l).
Definition set_done v l := Locals (new_row l) (new_col l)
  (new_pass_idx l) (new_fuel l) (reward l) v (moved l).
Definition set_moved v l := Locals (new_row l) (new_col l)
  (new_pass_idx l) (new_fuel l) (reward l) (done l) v.

(** [desc[i, j] == b":"] *)
Definition no_wall (i j : Z) : result bool :=
  let* c := Py.getitem2 desc i j in Ok (Ascii.eqb c ":").

(** The first conditional of the action loop: [if action == 0 ... elif
    action == 1 ...]. *)
Definition move_rows (row action : Z) (l : locals) : locals :=
  if action =? 0 then
    let l := set_new_row (Z.min (row + 1) max_row) l in
    if negb (row =? max_row) then set_moved true l else l
  else if action =? 1 then
    let l := set_new_row (Z.max (row - 1) 0) l in
    if negb (row =? 0) then set_moved true l else l
  else l.

(** The second conditional: [if action == 2 and ... elif action == 3
    and ... elif action == 4 ... elif action == 5 ... elif action == 6].
    [and] evaluates its right operand only when the left one holds. *)
Definition act (row col pass_idx dest_idx action : Z) (l : locals)
  : result locals :=
  let taxi_loc := (row, col) in
  let* east := (if action =? 2 then no_wall (1 + row) (2 * col + 2)
                else Ok false) in
  if east then
    let l := set_new_col (Z.min (col + 1) max_col) l in
    Ok (if negb (col =? max_col) then set_moved true l else l)
  else
    let* west := (if action =? 3 then no_wall (1 + row) (2 * col)
                  else Ok false) in
    if west then
      let l := set_new_col (Z.max (col - 1) 0) l in
      Ok (if negb (col =? 0) then set_moved true l else l)
    else if action =? 4 then
      let* here := (if pass_idx <? 4 then
                      let* loc := Py.getitem locs pass_idx in
                      Ok (Py.pair_eqb taxi_loc loc)
                    else Ok false) in
      if here then Ok (set_new_pass_idx 4 l)
      else Ok (set_reward (-10) l)
    else if action =? 5 then
      let* dest := Py.getitem locs dest_idx in
      if Py.pair_eqb taxi_loc dest && (pass_idx =? 4) then
        Ok (set_reward 20 (set_done true (set_new_pass_idx dest_idx l)))
      else if Py.contains locs taxi_loc && (pass_idx =? 4) then
        let* k := Py.index locs taxi_loc in
        Ok (set_new_pass_idx k l)
      else Ok (set_reward (-10) l)
    else if action =? 6 then
      if Py.pair_eqb taxi_loc fuel_station then Ok (set_new_fuel 10 l)
      else Ok (set_reward (-10) l)
    else Ok l.

(** [if moved: ...] *)
Definition burn (fuel : Z) (l : locals) : locals :=
  if moved l then
    let l := if fuel =? 0 then set_reward (-10) l else l in
    set_new_fuel (Z.max 0 (fuel - 1)) l
  else l.

(** The body of [for action in range(num_actions)], up to the tuple it
    appends to [P[state][action]]. *)
Definition transition (row col pass_idx dest_idx fuel action : Z)
  : result outcome :=
  let l := Locals row col pass_idx fuel (-1) false false in
  let l := move_rows row action l in
  let* l := act row col pass_idx dest_idx action l in
  let l := burn fuel l in
  let new_state :=
    encode (new_row l) (new_col l) (new_pass_idx l) dest_idx (new_fuel l) in
  Ok (1%Q, new_state, reward l, done l).

(** *** The constructor *)

(** What [__init__] hands to [DiscreteEnv.__init__]. *)
Record env : Type := Env {
  nS : Z; nA : Z;
  P : gmap Z (gmap Z (list outcome));
  isd : list float }.

(** [P[state][action].append(o)] *)
Definition P_append (state action : Z) (o : outcome)
  (P : gmap Z (gmap Z (list outcome)))
  : result (gmap Z (gmap Z (list outcome))) :=
  let* acts := Py.dict_get P state in
  let* outs := Py.dict_get acts action in
  Ok (<[state := <[action := outs ++ [o]]> acts]> P).

(** The body of the innermost state loop, for one structured state. *)
Definition visit (row col pass_idx dest_idx fuel : Z)
  (st : list float * gmap Z (gmap Z (list outcome)))
  : result (list float * gmap Z (gmap Z (list outcome))) :=
  let '(initial_state_distrib, P) := st in
  let state := encode row col pass_idx dest_idx fuel in
  let* initial_state_distrib :=
    (if (pass_idx <? 4) && negb (pass_idx =? dest_idx) && (fuel =? max_fuel)
     then
       let* w := Py.getitem initial_state_distrib state in
       Py.setitem initial_state_distrib state (w + 1)%float
     else Ok initial_state_distrib) in
  let* P :=
    Py.for_ (Py.range num_actions) (fun action P =>
      let* o := transition row col pass_idx dest_idx fuel action in
      P_append state action o P) P in
  Ok (initial_state_distrib, P).

(** [a.sum()] on a float64 array, the cells added from left to right.
    numpy may add them in another order; where [__init__] calls it the
    cells are 0.0 and 1.0 and the total is 300, so every partial sum is
    a small integer and exact in any order. *)
Definition np_sum (a : list float) : float :=
  fold_left PrimFloat.add a 0%float.

(** The loops of [__init__]: the dict comprehension that creates [P],
    then the five nested state loops. *)
Definition fill : result (list float * gmap Z (gmap Z (list outcome))) :=
  let initial_state_distrib := replicate (Z.to_nat num_states) 0%float in
  let P : gmap Z (gmap Z (list outcome)) :=
    list_to_map
      (map (fun state =>
              (state,
               list_to_map (map (fun action => (action, []))
                                (Py.range num_actions))))
           (Py.range num_states)) in
  Py.for_ (Py.range num_rows) (fun row =>
    Py.for_ (Py.range num_columns) (fun col =>
      Py.for_ (Py.range (Z.of_nat (length locs) + 1)) (fun pass_idx =>
        Py.for_ (Py.range (Z.of_nat (length locs))) (fun dest_idx =>
          Py.for_ (Py.range (max_fuel + 1)) (fun fuel =>
            visit row col pass_idx dest_idx fuel)))))
    (initial_state_distrib, P).

(** [initial_state_distrib /= initial_state_distrib.sum()] *)
Definition normalize (a : list float) : list float :=
  let total := np_sum a in
  map (fun w => (w / total)%float) a.

Definition init : result env :=
  let* st := fill in
  let '(initial_state_distrib, P) := st in
  let initial_state_distrib := normalize initial_state_distrib in
  Ok (Env num_states num_actions P initial_state_distrib).

End TaxiFuelEnv.

Import TaxiFuelEnv.

(** ** Derived notions used to state the properties *)

(** A structured state with every component in its range. *)
Definition valid_state (row col pass_idx dest_idx fuel : Z) : Prop :=
  0 <= row < 5 /\ 0 <= col < 5 /\ 0 <= pass_idx < 5 /\
  0 <= dest_idx < 4 /\ 0 <= fuel < 11.

Definition value_or {A} (d : A) (m : result A) : A :=
  match m with Ok a => a | Raise _ => d end.

(** The state the loops of [__init__] end in, and the environment built
    from it ([init_built] below: this is what [init] returns). *)
Definition filled : list float * gmap Z (gmap Z (list outcome)) :=
  value_or ([], ∅) fill.

Definition built : env :=
  Env num_states num_actions (filled.2) (normalize (filled.1)).

(** [P[s][a]], when both keys are present. *)
Definition entries (P : gmap Z (gmap Z (list outcome))) (s a : Z)
  : option (list outcome) :=
  match P !! s with
  | Some acts => acts !! a
  | None => None
  end.

(** The list the loop body appends to an empty [P[s][a]] for the state
    that [s] decodes to. *)
Definition cell (s a : Z) : list outcome :=
  match decode s with
  | Ok [row; col; pass_idx; dest_idx; fuel] =>
      match transition row col pass_idx dest_idx fuel a with
      | Ok o => [o]
      | Raise _ => []
      end
  | _ => []
  end.

(** Whether [__init__] counts the state [s] as an initial state. *)
Definition eligible (s : Z) : bool :=
  match decode s with
  | Ok [row; col; pass_idx; dest_idx; fuel] =>
      (pass_idx <? 4) && negb (pass_idx =? dest_idx) && (fuel =? max_fuel)
  | _ => false
  end.

(** Closed forms of the position the movement branches compute. *)
Definition east_open (row col : Z) : bool :=
  value_or false (no_wall (1 + row) (2 * col + 2)).
Definition west_open (row col : Z) : bool :=
  value_or false (no_wall (1 + row) (2 * col)).
Definition next_row (row action : Z) : Z :=
  if action =? 0 then Z.min (row + 1) max_row
  else if action =? 1 then Z.max (row - 1) 0
  else row.
Definition next_col (row col action : Z) : Z :=
  if (action =? 2) && east_open row col then Z.min (col + 1) max_col
  else if (action =? 3) && west_open row col then Z.max (col - 1) 0
  else col.

(** *** Boolean checkers, evaluated on the constructed table *)

Definition outcome_eqb (x y : outcome) : bool :=
  (Qnum (prob_of x) =? Qnum (prob_of y)) &&
  (Qden (prob_of x) =? Qden (prob_of y))%positive &&
  (next_of x =? next_of y) && (reward_of x =? reward_of y) &&
  Bool.eqb (done_of x) (done_of y).

Fixpoint outcomes_eqb (l1 l2 : list outcome) : bool :=
  match l1, l2 with
  | [], [] => true
  | x :: l1', y :: l2' => outcome_eqb x y && outcomes_eqb l1' l2'
  | _, _ => false
  end.

Definition in_range (n k : Z) : bool := (0 <=? k) && (k <? n).

(** Every pair of keys in range holds exactly the list [cell s a]. *)
Definition check_cells (P : gmap Z (gmap Z (list outcome))) : bool :=
  forallb (fun s =>
    forallb (fun a =>
      match entries P s a with
      | Some l => outcomes_eqb l (cell s a)
      | None => false
      end) (Py.range num_actions)) (Py.range num_states).

(** The table has no other keys. *)
Definition check_keys (P : gmap Z (gmap Z (list outcome))) : bool :=
  forallb (fun sa =>
    in_range num_states sa.1 &&
    forallb (fun al => in_range num_actions al.1) (map_to_list sa.2))
    (map_to_list P).

(** *** Reading binary64 values *)

(** Structural equality of the IEEE values [Prim2SF] returns. *)
Definition sf_eqb (x y : spec_float) : bool :=
  match x, y with
  | S754_zero s1, S754_zero s2 => Bool.eqb s1 s2
  | S754_infinity s1, S754_infinity s2 => Bool.eqb s1 s2
  | S754_nan, S754_nan => true
  | S754_finite s1 m1 e1, S754_finite s2 m2 e2 =>
      Bool.eqb s1 s2 && (m1 =? m2)%positive && (e1 =? e2)
  | _, _ => false
  end.

(** The rational number a finite float is: (+/-) m * 2^e.  (Infinities
    and NaN, which do not occur here, count as 0.) *)
Definition float_value (x : float) : Q :=
  match Prim2SF x with
  | S754_finite s m e =>
      (inject_Z (if s then Z.neg m else Z.pos m) * Qpower 2 e)%Q
  | _ => 0%Q
  end.


(** The same total, kept in lowest terms while adding. *)
Definition exact_sum_red (l : list float) : Q :=
  fold_right (fun x acc => Qred (float_value x + acc)) 0%Q l.

(** The double nearest 1/300: 7686143364045647 * 2^-61. *)
Definition weight_sf : spec_float :=
  S754_finite false 7686143364045647 (-61).

(** 300.0 *)
Definition total_sf : spec_float :=
  S754_finite false 5277655813324800 (-44).

(** 1 + 148 * 2^-61, that is 300 * 7686143364045647 * 2^-61. *)
Definition weights_total : Q := (1 + (148 # 2305843009213693952))%Q.

(** The cells of the distribution: one per state, the double nearest
    1/300 on the states [__init__] counts, +0.0 on the others. *)
Definition check_isd (l : list float) : bool :=
  (Z.of_nat (length l) =? num_states) &&
  forallb (fun s =>
    match l !! Z.to_nat s with
    | Some x =>
        sf_eqb (Prim2SF x) (if eligible s then weight_sf else S754_zero false)
    | None => false
    end) (Py.range num_states).

(** The total of the cells: exactly [weights_total]; added as floats
    from left to right, below 1.0. *)
Definition check_sums (l : list float) : bool :=
  Qeq_bool (exact_sum_red l) weights_total && (np_sum l <? 1)%float.

(** All the checks at once, on the result of the loops. *)
Definition check_fill
  (m : result (list float * gmap Z (gmap Z (list outcome)))) : bool :=
  match m with
  | Ok st =>
      check_cells (st.2) && check_keys (st.2) &&
      check_isd (normalize (st.1)) && check_sums (normalize (st.1)) &&
      sf_eqb (Prim2SF (np_sum (st.1))) total_sf
  | Raise _ => false
  end.

(** *** Notions used by the further properties *)

(** The action that undoes a movement action. *)
Definition opposite (action : Z) : Z :=
  if action =? 0 then 1 else if action =? 1 then 0
  else if action =? 2 then 3 else 2.

(** Lexicographic order on structured states. *)
Definition lex_lt (s1 s2 : Z * Z * Z * Z * Z) : Prop :=
  let '(r1, c1, p1, d1, f1) := s1 in
  let '(r2, c2, p2, d2, f2) := s2 in
  r1 < r2 \/ (r1 = r2 /\ (c1 < c2 \/ (c1 = c2 /\ (p1 < p2 \/
    (p1 = p2 /\ (d1 < d2 \/ (d1 = d2 /\ f1 < f2))))))).

(** ** Rendering *)

(** The two modes of [metadata['render.modes']].  With any other mode
    string the source calls [getvalue] on [sys.stdout]; that is outside
    this model. *)
Inductive mode : Set := human | ansi.

Definition newline : string := String (ascii_of_nat 10) EmptyString.

(** The cell of the character map that shows the grid position [loc]. *)
Definition cell_of (loc : Z * Z) : Z * Z := (1 + loc.1, 2 * loc.2 + 1).

Section Render.

(** [gym.utils.colorize(string, color, bold, highlight)], a function of
    the gym library. *)
Variable colorize : string -> string -> bool -> bool -> string.

(** [out = self.desc.copy().tolist()], each byte decoded to a string. *)
Definition plain_grid : list (list string) :=
  map (map (fun c => String c EmptyString)) desc.

(** The local function [ul] of [render]. *)
Definition ul (x : string) : string :=
  if String.eqb x " " then "_"%string else x.

(** [out[i][j] = f(out[i][j])]: the right-hand side is read first, then
    the row [out[i]] is updated in place. *)
Definition paint_cell (out : list (list string)) (i j : Z)
  (f : string -> string) : result (list (list string)) :=
  let* row := Py.getitem out i in
  let* x := Py.getitem row j in
  let* row' := Py.setitem row j (f x) in
  Py.setitem out i row'.

(** The part of [render] that builds [out] for the state [s]. *)
Definition render_grid (s : Z) : result (list (list string)) :=
  let out := plain_grid in
  let* st := decode s in
  match st with
  | [taxi_row; taxi_col; pass_idx; dest_idx; fuel] =>
      let* out :=
        if pass_idx <? 4 then
          let* out :=
            paint_cell out (1 + taxi_row) (2 * taxi_col + 1)
              (fun x => colorize x "yellow" false true) in
          let* pij := Py.getitem locs pass_idx in
          paint_cell out (1 + pij.1) (2 * pij.2 + 1)
            (fun x => colorize x "blue" true false)
        else
          paint_cell out (1 + taxi_row) (2 * taxi_col + 1)
            (fun x => colorize (ul x) "green" false true) in
      let* dij := Py.getitem locs dest_idx in
      paint_cell out (1 + dij.1) (2 * dij.2 + 1)
        (fun x => colorize x "magenta" false false)
  | _ => Raise ValueError
  end.

Definition action_names : list string :=
  ["South"; "North"; "East"; "West"; "Pickup"; "Dropoff"; "Refill"]%string.

(** The line [render] writes after the grid. *)
Definition action_line (lastaction : option Z) : result string :=
  match lastaction with
  | Some a =>
      let* name := Py.getitem action_names a in
      Ok (String.append "  (" (String.append name (String.append ")" newline)))
  | None => Ok newline
  end.

(** [render(self, mode)], for the driver's state [s] and [lastaction]:
    the new contents of [sys.stdout] (given the old ones) and the value
    returned or the exception raised.  In mode [ansi] the text goes to a
    fresh [StringIO] that is returned and closed. *)
Definition render (stdout : string) (s : Z) (lastaction : option Z)
  (m : mode) : string * result (option string) :=
  let outfile := match m with ansi => EmptyString | human => stdout end in
  match render_grid s with
  | Raise e => (stdout, Raise e)
  | Ok out =>
      let outfile :=
        String.append outfile
          (String.append (String.concat newline (map (String.concat "") out))
             newline) in
      match action_line lastaction with
      | Raise e =>
          (match m with ansi => stdout | human => outfile end, Raise e)
      | Ok line =>
          let outfile := String.append outfile line in
          match m with
          | human => (outfile, Ok None)
          | ansi => (stdout, Ok (Some outfile))
          end
      end
  end.

End Render.

(** *** Proof automation *)

(** Case analysis on an integer known to lie in a small range. *)
Ltac enum5 x :=
  let H := fresh in
  assert (H : x = 0 \/ x = 1 \/ x = 2 \/ x = 3 \/ x = 4) by lia;
  destruct H as [-> | [-> | [-> | [-> | ->]]]].

Ltac enum4 x :=
  let H := fresh in
  assert (H : x = 0 \/ x = 1 \/ x = 2 \/ x = 3) by lia;
  destruct H as [-> | [-> | [-> | ->]]].

(** Case analysis on every conditional of the goal. *)
Ltac case_ifs :=
  repeat match goal with
         | |- context [if ?b then _ else _] => destruct b eqn:?
         end.

(** ** The state codec *)

Section Codec.
Import TaxiFuelEnv.

Lemma encode_range row col p d f :
  valid_state row col p d f -> 0 <= encode row col p d f < 5500.
Proof. unfold valid_state, encode. lia. Qed.

(** One digit of the mixed-radix representation. *)
Lemma digit_div a b n : 0 <= b < n -> (a * n + b) / n = a.
Proof.
  intros Hb. rewrite Z.div_add_l by lia. rewrite Z.div_small by lia. lia.
Qed.

Lemma digit_mod a b n : 0 <= b < n -> (a * n + b) mod n = b.
Proof.
  intros Hb. rewrite Z.add_comm, Z.mod_add by lia. apply Z.mod_small, Hb.
Qed.

Lemma decode_encode row col p d f :
  valid_state row col p d f ->
  decode (encode row col p d f) = Ok [row; col; p; d; f].
Proof.
  intros (Hr & Hc & Hp & Hd & Hf).
  unfold decode, encode; cbv zeta.
  rewrite (digit_mod _ f 11), (digit_div _ f 11) by lia.
  rewrite (digit_mod _ d 4), (digit_div _ d 4) by lia.
  rewrite (digit_mod _ p 5), (digit_div _ p 5) by lia.
  rewrite (digit_mod _ col 5), (digit_div _ col 5) by lia.
  assert (Hb : (0 <=? row) && (row <? 5) = true).
  { apply andb_true_iff; split; [apply Z.leb_le | apply Z.ltb_lt]; lia. }
  rewrite Hb. reflexivity.
Qed.

Lemma encode_decode i :
  0 <= i < 5500 ->
  exists row col p d f,
    decode i = Ok [row; col; p; d; f] /\
    valid_state row col p d f /\
    encode row col p d f = i.
Proof.
  intros Hi.
  exists (i / 11 / 4 / 5 / 5), (i / 11 / 4 / 5 mod 5), (i / 11 / 4 mod 5),
         (i / 11 mod 4), (i mod 11).
  assert (Hq : 0 <= i / 11 / 4 / 5 / 5 < 5).
  { split.
    - repeat apply Z.div_pos; lia.
    - repeat (apply Z.div_lt_upper_bound; [lia|]). lia. }
  split; [|split].
  - unfold decode; cbv zeta.
    assert (Hb : (0 <=? i / 11 / 4 / 5 / 5) && (i / 11 / 4 / 5 / 5 <? 5) = true).
    { apply andb_true_iff; split; [apply Z.leb_le | apply Z.ltb_lt]; lia. }
    rewrite Hb. reflexivity.
  - unfold valid_state.
    pose proof (Z.mod_pos_bound (i / 11 / 4 / 5) 5).
    pose proof (Z.mod_pos_bound (i / 11 / 4) 5).
    pose proof (Z.mod_pos_bound (i / 11) 4).
    pose proof (Z.mod_pos_bound i 11). lia.
  - unfold encode.
    pose proof (Z.div_mod (i / 11 / 4 / 5) 5).
    pose proof (Z.div_mod (i / 11 / 4) 5).
    pose proof (Z.div_mod (i / 11) 4).
    pose proof (Z.div_mod i 11). lia.
Qed.

End Codec.

(** ** The constructed table *)

Section Table.

Lemma elem_of_range n k : In k (Py.range n) <-> 0 <= k < n.
Proof.
  unfold Py.range. rewrite in_map_iff. split.
  - intros (i & <- & Hi). apply in_seq in Hi. lia.
  - intros Hk. exists (Z.to_nat k). split; [lia|]. apply in_seq. lia.
Qed.

Lemma in_range_spec n k : in_range n k = true <-> 0 <= k < n.
Proof. unfold in_range. rewrite andb_true_iff, Z.leb_le, Z.ltb_lt. tauto. Qed.

Lemma outcome_eqb_eq x y : outcome_eqb x y = true -> x = y.
Proof.
  destruct x as [[[[xn xd] xs] xr] xb], y as [[[[yn yd] ys] yr] yb].
  unfold outcome_eqb, prob_of, next_of, reward_of, done_of; cbn.
  rewrite !andb_true_iff, !Z.eqb_eq, Pos.eqb_eq, Bool.eqb_true_iff.
  intros ((((-> & ->) & ->) & ->) & ->). reflexivity.
Qed.

Lemma outcomes_eqb_eq l1 l2 : outcomes_eqb l1 l2 = true -> l1 = l2.
Proof.
  revert l2. induction l1 as [|x l1 IH]; intros [|y l2]; cbn;
    try discriminate; [reflexivity|].
  rewrite andb_true_iff. intros [Hx Hl].
  f_equal; [apply outcome_eqb_eq, Hx | apply IH, Hl].
Qed.

Lemma sf_eqb_eq x y : sf_eqb x y = true -> x = y.
Proof.
  destruct x as [s1|s1| |s1 m1 e1], y as [s2|s2| |s2 m2 e2]; cbn [sf_eqb];
    try discriminate.
  - rewrite Bool.eqb_true_iff. intros ->. reflexivity.
  - rewrite Bool.eqb_true_iff. intros ->. reflexivity.
  - reflexivity.
  - rewrite !andb_true_iff, Bool.eqb_true_iff, Pos.eqb_eq, Z.eqb_eq.
    intros [[-> ->] ->]. reflexivity.
Qed.

(** The loops run to completion (no lookup fails) and the state they
    end in passes every check: one evaluation of [fill]. *)
Lemma fill_checked : check_fill fill = true.
Proof. vm_compute. reflexivity. Qed.

Lemma check_fill_sound m :
  check_fill m = true ->
  is_ok m = true /\
  check_cells ((value_or ([], ∅) m).2) = true /\
  check_keys ((value_or ([], ∅) m).2) = true /\
  check_isd (normalize ((value_or ([], ∅) m).1)) = true /\
  check_sums (normalize ((value_or ([], ∅) m).1)) = true /\
  Prim2SF (np_sum ((value_or ([], ∅) m).1)) = total_sf.
Proof.
  destruct m as [st|e]; cbn [check_fill is_ok value_or]; [|discriminate].
  rewrite !andb_true_iff. intros ((((H1 & H2) & H3) & H4) & H5).
  repeat split; try assumption. apply sf_eqb_eq, H5.
Qed.

(** [fill] is only ever evaluated by the virtual machine. *)
Opaque fill.

Lemma fill_ok : is_ok fill = true.
Proof. exact (proj1 (check_fill_sound fill fill_checked)). Qed.

Lemma filled_cells : check_cells (filled.2) = true.
Proof.
  unfold filled. exact (proj1 (proj2 (check_fill_sound fill fill_checked))).
Qed.

Lemma filled_keys : check_keys (filled.2) = true.
Proof.
  unfold filled.
  exact (proj1 (proj2 (proj2 (check_fill_sound fill fill_checked)))).
Qed.

Lemma filled_isd : check_isd (normalize (filled.1)) = true.
Proof.
  unfold filled.
  exact (proj1 (proj2 (proj2 (proj2 (check_fill_sound fill fill_checked))))).
Qed.


(** 300 states are counted (25 positions, 12 pairs of distinct passenger
    location and destination, a full tank): the divisor is 300.0. *)
Lemma sum_filled : Prim2SF (np_sum (filled.1)) = total_sf.
Proof.
  unfold filled.
  exact (proj2 (proj2 (proj2 (proj2 (proj2
           (check_fill_sound fill fill_checked)))))).
Qed.

Opaque filled.

Lemma is_ok_value_or {A} (d : A) (m : result A) :
  is_ok m = true -> m = Ok (value_or d m).
Proof. destruct m; [reflexivity | discriminate]. Qed.

Lemma init_of_fill st :
  fill = Ok st ->
  init = Ok (Env num_states num_actions (st.2) (normalize (st.1))).
Proof. intros H. unfold init. rewrite H. destruct st. reflexivity. Qed.

(** The constructor returns, and [built] is what it returns. *)
Lemma init_built : init = Ok built.
Proof. exact (init_of_fill filled (is_ok_value_or _ fill fill_ok)). Qed.

(** What the two checkers establish, for any table. *)
Lemma check_cells_sound (T : gmap Z (gmap Z (list outcome))) s a :
  check_cells T = true ->
  0 <= s < 5500 -> 0 <= a < 7 -> entries T s a = Some (cell s a).
Proof.
  unfold check_cells. intros H Hs Ha.
  rewrite forallb_forall in H.
  specialize (H s (proj2 (elem_of_range _ _) Hs)).
  rewrite forallb_forall in H.
  specialize (H a (proj2 (elem_of_range _ _) Ha)).
  destruct (entries T s a) as [l|]; [|discriminate].
  f_equal. apply outcomes_eqb_eq, H.
Qed.

Lemma check_keys_sound (T : gmap Z (gmap Z (list outcome))) s a l :
  check_keys T = true ->
  entries T s a = Some l -> 0 <= s < 5500 /\ 0 <= a < 7.
Proof.
  unfold check_keys, entries. intros H.
  destruct (T !! s) as [acts|] eqn:Hs; [|discriminate]. intros Ha.
  rewrite forallb_forall in H.
  specialize (H (s, acts)).
  rewrite andb_true_iff, in_range_spec, forallb_forall in H.
  destruct H as [H1 H2].
  { apply list_elem_of_In, elem_of_map_to_list, Hs. }
  split; [exact H1|].
  apply (in_range_spec num_actions a), (H2 (a, l)).
  apply list_elem_of_In, elem_of_map_to_list, Ha.
Qed.

Lemma P_built : P built = filled.2.
Proof. reflexivity. Qed.

Lemma built_entries s a :
  0 <= s < 5500 -> 0 <= a < 7 -> entries (P built) s a = Some (cell s a).
Proof. rewrite P_built. apply check_cells_sound, filled_cells. Qed.

Lemma built_keys s a l :
  entries (P built) s a = Some l -> 0 <= s < 5500 /\ 0 <= a < 7.
Proof. rewrite P_built. apply check_keys_sound, filled_keys. Qed.

End Table.

(** ** The loop body, branch by branch *)

Section Branches.

(** Movement (actions 0 to 3): the position becomes [next_row],
    [next_col]; fuel is burnt, and an empty tank penalised, exactly when
    the position changed. *)
Lemma transition_move row col p d f a :
  0 <= row < 5 -> 0 <= col < 5 -> 0 <= a <= 3 ->
  let changed :=
    negb (Py.pair_eqb (next_row row a, next_col row col a) (row, col)) in
  transition row col p d f a =
  Ok (1%Q,
      encode (next_row row a) (next_col row col a) p d
        (if changed then Z.max 0 (f - 1) else f),
      if changed then (if f =? 0 then -10 else -1) else -1,
      false).
Proof.
  intros Hr Hc Ha. enum4 a; enum5 row; enum5 col;
    unfold transition, burn; destruct (f =? 0); reflexivity.
Qed.

(** Pickup (action 4). *)
Lemma transition_pickup row col p d f :
  0 <= row < 5 -> 0 <= col < 5 -> 0 <= p < 5 ->
  let here :=
    (p <? 4) &&
    Py.pair_eqb (row, col) (value_or (0, 0) (Py.getitem locs p)) in
  transition row col p d f 4 =
  Ok (1%Q, encode row col (if here then 4 else p) d f,
      if here then -1 else -10, false).
Proof.
  intros Hr Hc Hp. enum5 row; enum5 col; enum5 p; reflexivity.
Qed.

(** Dropoff (action 5). *)
Lemma transition_dropoff row col p d f :
  0 <= row < 5 -> 0 <= col < 5 -> 0 <= p < 5 -> 0 <= d < 4 ->
  let at_dest :=
    Py.pair_eqb (row, col) (value_or (0, 0) (Py.getitem locs d)) &&
    (p =? 4) in
  let at_loc := Py.contains locs (row, col) && (p =? 4) in
  transition row col p d f 5 =
  Ok (1%Q,
      encode row col
        (if at_dest then d
         else if at_loc then value_or 0 (Py.index locs (row, col))
         else p) d f,
      if at_dest then 20 else if at_loc then -1 else -10,
      at_dest).
Proof.
  intros Hr Hc Hp Hd. enum5 row; enum5 col; enum5 p; enum4 d; reflexivity.
Qed.

(** Refill (action 6). *)
Lemma transition_refill row col p d f :
  0 <= row < 5 -> 0 <= col < 5 ->
  let here := Py.pair_eqb (row, col) fuel_station in
  transition row col p d f 6 =
  Ok (1%Q, encode row col p d (if here then 10 else f),
      if here then -1 else -10, false).
Proof.
  intros Hr Hc. enum5 row; enum5 col; reflexivity.
Qed.

End Branches.

(** ** Facts about the grid, the locations and the codec *)

Section Grid.

Lemma pair_eqb_eq x y : Py.pair_eqb x y = true <-> x = y.
Proof.
  destruct x as [x1 x2], y as [y1 y2]. unfold Py.pair_eqb; cbn [fst snd].
  rewrite andb_true_iff, !Z.eqb_eq. split.
  - intros [-> ->]. reflexivity.
  - intros H. injection H as -> ->. auto.
Qed.

Lemma next_row_range row a : 0 <= row < 5 -> 0 <= next_row row a < 5.
Proof.
  intros Hr. unfold next_row, max_row, num_rows.
  destruct (a =? 0); [lia|]. destruct (a =? 1); lia.
Qed.

Lemma next_col_range row col a : 0 <= col < 5 -> 0 <= next_col row col a < 5.
Proof.
  intros Hc. unfold next_col, max_col, num_columns.
  destruct ((a =? 2) && east_open row col); [lia|].
  destruct ((a =? 3) && west_open row col); lia.
Qed.

(** The west border is a wall on every row. *)
Lemma west_border row : 0 <= row < 5 -> west_open row 0 = false.
Proof. intros Hr. enum5 row; reflexivity. Qed.

(** Every destination index names a location. *)
Lemma getitem_locs k :
  0 <= k < 4 -> Py.getitem locs k = Ok (value_or (0, 0) (Py.getitem locs k)).
Proof. intros Hk. enum4 k; reflexivity. Qed.

(** The four locations are distinct: a location has one index. *)
Lemma index_locs k row col :
  0 <= k < 4 -> Py.getitem locs k = Ok (row, col) ->
  Py.contains locs (row, col) = true /\ Py.index locs (row, col) = Ok k.
Proof.
  intros Hk. enum4 k; intros H; injection H as <- <-; split; reflexivity.
Qed.

Lemma index_range row col :
  0 <= row < 5 -> 0 <= col < 5 ->
  0 <= value_or 0 (Py.index locs (row, col)) < 4.
Proof.
  intros Hr Hc. enum5 row; enum5 col;
    (cbv; split; [discriminate | reflexivity]).
Qed.

Lemma decode_inv s row col p d f :
  decode s = Ok [row; col; p; d; f] ->
  valid_state row col p d f /\ encode row col p d f = s.
Proof.
  unfold decode; cbv zeta.
  destruct ((0 <=? s / 11 / 4 / 5 / 5) && (s / 11 / 4 / 5 / 5 <? 5)) eqn:Hb;
    cbn [bind assert rev app]; [|discriminate].
  intros H. injection H as <- <- <- <- <-.
  apply andb_true_iff in Hb. rewrite Z.leb_le, Z.ltb_lt in Hb.
  pose proof (Z.mod_pos_bound (s / 11 / 4 / 5) 5).
  pose proof (Z.mod_pos_bound (s / 11 / 4) 5).
  pose proof (Z.mod_pos_bound (s / 11) 4).
  pose proof (Z.mod_pos_bound s 11).
  pose proof (Z.div_mod (s / 11 / 4 / 5) 5).
  pose proof (Z.div_mod (s / 11 / 4) 5).
  pose proof (Z.div_mod (s / 11) 4).
  pose proof (Z.div_mod s 11).
  unfold valid_state, encode. lia.
Qed.

(** Reading a successor index back. *)
Lemma decode_succ nr nc np nd nf row col p d f :
  valid_state nr nc np nd nf ->
  decode (encode nr nc np nd nf) = Ok [row; col; p; d; f] ->
  row = nr /\ col = nc /\ p = np /\ d = nd /\ f = nf.
Proof.
  intros Hv. rewrite (decode_encode _ _ _ _ _ Hv).
  intros H. injection H as -> -> -> -> ->. auto.
Qed.

End Grid.

(** ** Entries of the constructed table *)

Section Entries.

(** An entry of the table is the outcome the loop body computes for the
    state its key decodes to. *)
Lemma entry_inv s a l o row col p d f :
  entries (P built) s a = Some l -> In o l ->
  decode s = Ok [row; col; p; d; f] ->
  valid_state row col p d f /\ encode row col p d f = s /\
  0 <= a < 7 /\ transition row col p d f a = Ok o /\ l = [o].
Proof.
  intros He Ho Hs. destruct (built_keys _ _ _ He) as [Hsr Har].
  rewrite built_entries in He by assumption. injection He as <-.
  unfold cell in *. rewrite Hs in Ho |- *.
  destruct (decode_inv _ _ _ _ _ _ Hs) as [Hv Hen].
  destruct (transition row col p d f a) as [o'|e]; [|destruct Ho].
  destruct Ho as [<- | []]. auto.
Qed.

(** The loop body never raises on a valid state, and its successor is a
    valid state with the same destination. *)
Lemma transition_succ row col p d f a :
  valid_state row col p d f -> 0 <= a < 7 ->
  exists nr nc np nf r dn,
    transition row col p d f a = Ok (1%Q, encode nr nc np d nf, r, dn) /\
    valid_state nr nc np d nf /\
    (r = -10 \/ r = -1 \/ r = 20).
Proof.
  intros (Hr & Hc & Hp & Hd & Hf) Ha.
  pose proof (next_row_range row a Hr).
  pose proof (next_col_range row col a Hc).
  pose proof (index_range row col Hr Hc).
  assert (Hcase : a <= 3 \/ a = 4 \/ a = 5 \/ a = 6) by lia.
  destruct Hcase as [H3 | [-> | [-> | ->]]].
  - rewrite transition_move by lia. cbv zeta.
    do 6 eexists. split; [reflexivity|]. unfold valid_state.
    case_ifs; lia.
  - rewrite transition_pickup by lia. cbv zeta.
    do 6 eexists. split; [reflexivity|]. unfold valid_state.
    case_ifs; lia.
  - rewrite transition_dropoff by lia. cbv zeta.
    do 6 eexists. split; [reflexivity|]. unfold valid_state.
    case_ifs; lia.
  - rewrite transition_refill by lia. cbv zeta.
    do 6 eexists. split; [reflexivity|]. unfold valid_state.
    case_ifs; lia.
Qed.

End Entries.

(** ** The properties of the specification *)

Section Claims.

(** C1: [encode] and [decode] are inverse bijections between the valid
    structured states and the indices of [0, 5500): decoding the index
    of a valid state gives the state back, that index lies in
    [0, 5500), and every index of [0, 5500) decodes to a valid state
    that encodes to it. *)
Theorem codec_bijection row col p d f i :
  valid_state row col p d f ->
  0 <= i < 5500 ->
  (decode (encode row col p d f) = Ok [row; col; p; d; f] /\
   0 <= encode row col p d f < 5500) /\
  (exists row' col' p' d' f',
      decode i = Ok [row'; col'; p'; d'; f'] /\
      valid_state row' col' p' d' f' /\
      encode row' col' p' d' f' = i).
Proof.
  intros Hv Hi. split; [split|].
  - apply decode_encode, Hv.
  - apply encode_range, Hv.
  - apply encode_decode, Hi.
Qed.

Lemma codec_bijection_witness :
  (decode (encode 3 1 4 2 7) = Ok [3; 1; 4; 2; 7] /\
   0 <= encode 3 1 4 2 7 < 5500) /\
  (exists row' col' p' d' f',
      decode 4242 = Ok [row'; col'; p'; d'; f'] /\
      valid_state row' col' p' d' f' /\
      encode row' col' p' d' f' = 4242).
Proof.
  apply (codec_bijection 3 1 4 2 7 4242); unfold valid_state; lia.
Defined.

(** C2: the constructor returns, and in the table it returns every
    state index of [0, 5500) and every action index of [0, 7) holds a
    list of exactly one outcome tuple, whose probability is 1. *)
Theorem table_complete s a :
  0 <= s < 5500 -> 0 <= a < 7 ->
  init = Ok built /\
  exists o, entries (P built) s a = Some [o] /\ prob_of o = 1%Q.
Proof.
  intros Hs Ha. split; [apply init_built|].
  rewrite built_entries by assumption. unfold cell.
  destruct (encode_decode s Hs) as (row & col & p & d & f & Hd & Hv & _).
  rewrite Hd.
  destruct (transition_succ row col p d f a Hv Ha)
    as (nr & nc & np & nf & r & dn & Ht & _).
  rewrite Ht. eexists. split; reflexivity.
Qed.

Lemma table_complete_witness :
  init = Ok built /\
  exists o, entries (P built) 1077 5 = Some [o] /\ prob_of o = 1%Q.
Proof. apply (table_complete 1077 5); lia. Defined.

(** C6: every reward recorded in the table is -10, -1 or 20. *)
Theorem reward_values s a l o :
  entries (P built) s a = Some l -> In o l ->
  reward_of o = -10 \/ reward_of o = -1 \/ reward_of o = 20.
Proof.
  intros He Ho. destruct (built_keys _ _ _ He) as [Hs Ha].
  destruct (encode_decode s Hs) as (row & col & p & d & f & Hd & Hv & _).
  destruct (entry_inv _ _ _ _ _ _ _ _ _ He Ho Hd) as (_ & _ & _ & Ht & _).
  destruct (transition_succ row col p d f a Hv Ha)
    as (nr & nc & np & nf & r & dn & Ht' & _ & Hr).
  rewrite Ht' in Ht. injection Ht as <-. exact Hr.
Qed.

Lemma reward_values_witness :
  reward_of (1%Q, 1100, -10, false) = -10 \/
  reward_of (1%Q, 1100, -10, false) = -1 \/
  reward_of (1%Q, 1100, -10, false) = 20.
Proof.
  apply (reward_values 0 0 [(1%Q, 1100, -10, false)]).
  - rewrite built_entries by lia. reflexivity.
  - left. reflexivity.
Defined.

(** C9: every successor index recorded in the table lies in
    [0, 5500); it decodes, and its fuel component is in [0, 10]. *)
Theorem successor_in_range s a l o :
  entries (P built) s a = Some l -> In o l ->
  0 <= next_of o < 5500 /\
  exists nrow ncol np nd nf,
    decode (next_of o) = Ok [nrow; ncol; np; nd; nf] /\ 0 <= nf <= 10.
Proof.
  intros He Ho. destruct (built_keys _ _ _ He) as [Hs Ha].
  destruct (encode_decode s Hs) as (row & col & p & d & f & Hd & Hv & _).
  destruct (entry_inv _ _ _ _ _ _ _ _ _ He Ho Hd) as (_ & _ & _ & Ht & _).
  destruct (transition_succ row col p d f a Hv Ha)
    as (nr & nc & np & nf & r & dn & Ht' & Hv' & _).
  rewrite Ht' in Ht. injection Ht as <-. unfold next_of; cbn [fst snd].
  split; [apply encode_range, Hv'|].
  exists nr, nc, np, d, nf. split; [apply decode_encode, Hv'|].
  unfold valid_state in Hv'. lia.
Qed.

Lemma successor_in_range_witness :
  0 <= next_of (1%Q, 1100, -10, false) < 5500 /\
  exists nrow ncol np nd nf,
    decode (next_of (1%Q, 1100, -10, false)) = Ok [nrow; ncol; np; nd; nf] /\
    0 <= nf <= 10.
Proof.
  apply (successor_in_range 0 0 [(1%Q, 1100, -10, false)]).
  - rewrite built_entries by lia. reflexivity.
  - left. reflexivity.
Defined.

(** C10: the successor recorded for a state and an action has the
    destination of the source state. *)
Theorem destination_unchanged s a l o row col p d f :
  entries (P built) s a = Some l -> In o l ->
  decode s = Ok [row; col; p; d; f] ->
  exists nrow ncol np nf,
    decode (next_of o) = Ok [nrow; ncol; np; d; nf].
Proof.
  intros He Ho Hd.
  destruct (entry_inv _ _ _ _ _ _ _ _ _ He Ho Hd) as (Hv & _ & Ha & Ht & _).
  destruct (transition_succ row col p d f a Hv Ha)
    as (nr & nc & np & nf & r & dn & Ht' & Hv' & _).
  rewrite Ht' in Ht. injection Ht as <-. unfold next_of; cbn [fst snd].
  exists nr, nc, np, nf. apply decode_encode, Hv'.
Qed.

Lemma destination_unchanged_witness :
  exists nrow ncol np nf,
    decode (next_of (1%Q, 945, 20, true)) = Ok [nrow; ncol; np; 1; nf].
Proof.
  apply (destination_unchanged 1077 5 [(1%Q, 945, 20, true)] _ 0 4 4 1 10).
  - rewrite built_entries by lia. reflexivity.
  - left. reflexivity.
  - reflexivity.
Defined.

(** C3: an entry of the table is terminal exactly when its action is
    dropoff (5), the passenger is in the taxi and the taxi stands on
    the destination's location; and its reward is 20 exactly then. *)
Theorem done_iff_delivery s a l o row col p d f :
  entries (P built) s a = Some l -> In o l ->
  decode s = Ok [row; col; p; d; f] ->
  (done_of o = true <->
   a = 5 /\ p = 4 /\ Py.getitem locs d = Ok (row, col)) /\
  (reward_of o = 20 <-> done_of o = true).
Proof.
  intros He Ho Hd.
  destruct (entry_inv _ _ _ _ _ _ _ _ _ He Ho Hd)
    as ((Hr & Hc & Hp & Hdd & Hf) & _ & Ha & Ht & _).
  clear He Ho.
  assert (Hcase : a <= 3 \/ a = 4 \/ a = 5 \/ a = 6) by lia.
  destruct Hcase as [H3 | [-> | [-> | ->]]].
  - rewrite transition_move in Ht by lia. cbv zeta in Ht.
    injection Ht as <-. unfold done_of, reward_of; cbn [fst snd].
    case_ifs; (split; split; intros; try discriminate; exfalso; lia).
  - rewrite transition_pickup in Ht by lia. cbv zeta in Ht.
    injection Ht as <-. unfold done_of, reward_of; cbn [fst snd].
    case_ifs; (split; split; intros; try discriminate; exfalso; lia).
  - rewrite transition_dropoff in Ht by lia. cbv zeta in Ht.
    injection Ht as <-. unfold done_of, reward_of; cbn [fst snd].
    pose proof (getitem_locs d Hdd) as Hg.
    destruct (Py.getitem locs d) as [loc|e]; [|discriminate Hg].
    cbn [value_or]. split.
    + rewrite andb_true_iff, pair_eqb_eq, Z.eqb_eq. split.
      * intros [<- ->]. auto.
      * intros (_ & -> & H). injection H as <-. auto.
    + case_ifs; split; intros; try reflexivity; try discriminate;
        exfalso; lia.
  - rewrite transition_refill in Ht by lia. cbv zeta in Ht.
    injection Ht as <-. unfold done_of, reward_of; cbn [fst snd].
    case_ifs; (split; split; intros; try discriminate; exfalso; lia).
Qed.

Lemma done_iff_delivery_witness :
  (done_of (1%Q, 945, 20, true) = true <->
   5 = 5 /\ 4 = 4 /\ Py.getitem locs 1 = Ok (0, 4)) /\
  (reward_of (1%Q, 945, 20, true) = 20 <->
   done_of (1%Q, 945, 20, true) = true).
Proof.
  apply (done_iff_delivery 1077 5 [(1%Q, 945, 20, true)] _ 0 4 4 1 10).
  - rewrite built_entries by lia. reflexivity.
  - left. reflexivity.
  - reflexivity.
Defined.

(** What a movement entry records, read back through [decode]. *)
Lemma move_entry s a l o row col p d f nrow ncol np nd nf :
  entries (P built) s a = Some l -> In o l ->
  decode s = Ok [row; col; p; d; f] ->
  decode (next_of o) = Ok [nrow; ncol; np; nd; nf] ->
  0 <= a <= 3 ->
  let changed := negb (Py.pair_eqb (nrow, ncol) (row, col)) in
  nrow = next_row row a /\ ncol = next_col row col a /\
  nf = (if changed then Z.max 0 (f - 1) else f) /\
  reward_of o = (if changed then (if f =? 0 then -10 else -1) else -1) /\
  done_of o = false /\
  next_of o = encode nrow ncol p d nf /\ s = encode row col p d f /\
  0 <= f < 11.
Proof.
  intros He Ho Hd Hn Ha.
  destruct (entry_inv _ _ _ _ _ _ _ _ _ He Ho Hd)
    as ((Hr & Hc & Hp & Hdd & Hf) & Hs & _ & Ht & _).
  clear He Ho.
  rewrite transition_move in Ht by lia. cbv zeta in Ht.
  injection Ht as <-. unfold next_of, reward_of, done_of in *.
  cbn [fst snd] in *.
  apply decode_succ in Hn.
  - destruct Hn as (-> & -> & -> & -> & ->). cbv zeta. auto 10.
  - pose proof (next_row_range row a Hr).
    pose proof (next_col_range row col a Hc).
    unfold valid_state. case_ifs; lia.
Qed.

(** C4: a movement action (0 to 3) that changes the taxi's position
    burns one unit of fuel with reward -1 when the tank is not empty;
    on an empty tank the reward is -10 and the fuel stays 0.  The move
    is not blocked by the empty tank: the position reached is the one
    reached from the same position with any other fuel level. *)
Theorem move_burns_fuel s a l o row col p d f nrow ncol np nd nf :
  entries (P built) s a = Some l -> In o l ->
  decode s = Ok [row; col; p; d; f] ->
  decode (next_of o) = Ok [nrow; ncol; np; nd; nf] ->
  0 <= a <= 3 ->
  (nrow, ncol) <> (row, col) ->
  (0 < f -> nf = f - 1 /\ reward_of o = -1) /\
  (f = 0 -> reward_of o = -10 /\ nf = 0) /\
  (forall f' l' o' nrow' ncol' np' nd' nf',
      entries (P built) (encode row col p d f') a = Some l' -> In o' l' ->
      0 <= f' <= 10 ->
      decode (next_of o') = Ok [nrow'; ncol'; np'; nd'; nf'] ->
      (nrow', ncol') = (nrow, ncol)).
Proof.
  intros He Ho Hd Hn Ha Hch.
  pose proof (move_entry _ _ _ _ _ _ _ _ _ _ _ _ _ _ He Ho Hd Hn Ha) as H.
  cbv zeta in H. destruct H as (Hnr & Hnc & Hnf & Hrw & _ & _ & _ & Hf).
  destruct (Py.pair_eqb (nrow, ncol) (row, col)) eqn:E.
  { apply pair_eqb_eq in E. contradiction. }
  cbn [negb] in Hnf, Hrw. split; [|split].
  - intros Hpos. destruct (f =? 0) eqn:E0; [apply Z.eqb_eq in E0|]; lia.
  - intros ->. cbn in Hrw. lia.
  - intros f' l' o' nrow' ncol' np' nd' nf' He' Ho' Hf' Hn'.
    destruct (decode_inv _ _ _ _ _ _ Hd) as [(Hr & Hc & Hp & Hdd & _) _].
    assert (Hd' : decode (encode row col p d f') = Ok [row; col; p; d; f']).
    { apply decode_encode. unfold valid_state. lia. }
    pose proof (move_entry _ _ _ _ _ _ _ _ _ _ _ _ _ _ He' Ho' Hd' Hn' Ha)
      as H'.
    cbv zeta in H'. destruct H' as (-> & -> & _). congruence.
Qed.

Lemma move_burns_fuel_witness :
  (0 < 0 -> 0 = 0 - 1 /\ reward_of (1%Q, 1100, -10, false) = -1) /\
  (0 = 0 -> reward_of (1%Q, 1100, -10, false) = -10 /\ 0 = 0) /\
  (forall f' l' o' nrow' ncol' np' nd' nf',
      entries (P built) (encode 0 0 0 0 f') 0 = Some l' -> In o' l' ->
      0 <= f' <= 10 ->
      decode (next_of o') = Ok [nrow'; ncol'; np'; nd'; nf'] ->
      (nrow', ncol') = (1, 0)).
Proof.
  apply (move_burns_fuel 0 0 [(1%Q, 1100, -10, false)] _ 0 0 0 0 0
           1 0 0 0 0).
  - rewrite built_entries by lia. reflexivity.
  - left. reflexivity.
  - reflexivity.
  - reflexivity.
  - lia.
  - discriminate.
Defined.

(** C7: a movement action (0 to 3) that leaves the taxi where it is
    records the source state itself as successor (same position, same
    fuel), with reward -1 and not terminal.  In particular moving west
    (3) from column 0 leaves position and fuel unchanged, with reward
    -1. *)
Theorem blocked_move_is_noop s a l o row col p d f nrow ncol np nd nf :
  entries (P built) s a = Some l -> In o l ->
  decode s = Ok [row; col; p; d; f] ->
  decode (next_of o) = Ok [nrow; ncol; np; nd; nf] ->
  0 <= a <= 3 ->
  ((nrow, ncol) = (row, col) ->
   next_of o = s /\ nf = f /\ reward_of o = -1 /\ done_of o = false) /\
  (a = 3 -> col = 0 ->
   nrow = row /\ ncol = col /\ nf = f /\ reward_of o = -1).
Proof.
  intros He Ho Hd Hn Ha.
  pose proof (move_entry _ _ _ _ _ _ _ _ _ _ _ _ _ _ He Ho Hd Hn Ha) as H.
  cbv zeta in H.
  destruct H as (Hnr & Hnc & Hnf & Hrw & Hdn & Hnx & Hs & Hf).
  assert (Hsame : (nrow, ncol) = (row, col) ->
                  next_of o = s /\ nf = f /\ reward_of o = -1 /\
                  done_of o = false).
  { intros E. rewrite (proj2 (pair_eqb_eq _ _) E) in Hnf, Hrw.
    cbn [negb] in Hnf, Hrw. injection E as E1 E2.
    rewrite Hnx, Hs, E1, E2, Hnf. auto. }
  split; [exact Hsame|].
  intros -> ->.
  destruct (decode_inv _ _ _ _ _ _ Hd) as [(Hr & _) _].
  assert (E : (nrow, ncol) = (row, 0)).
  { rewrite Hnr, Hnc. unfold next_row, next_col.
    rewrite (west_border row Hr). reflexivity. }
  destruct (Hsame E) as (_ & ? & ? & _). injection E as -> ->. auto.
Qed.

Lemma blocked_move_is_noop_witness :
  ((0, 0) = (0, 0) ->
   next_of (1%Q, 0, -1, false) = 0 /\ 0 = 0 /\
   reward_of (1%Q, 0, -1, false) = -1 /\
   done_of (1%Q, 0, -1, false) = false) /\
  (3 = 3 -> 0 = 0 ->
   0 = 0 /\ 0 = 0 /\ 0 = 0 /\ reward_of (1%Q, 0, -1, false) = -1).
Proof.
  apply (blocked_move_is_noop 0 3 [(1%Q, 0, -1, false)] _ 0 0 0 0 0
           0 0 0 0 0).
  - rewrite built_entries by lia. reflexivity.
  - left. reflexivity.
  - reflexivity.
  - reflexivity.
  - lia.
Defined.

(** C8: with the passenger in the taxi, a dropoff (5) on a named
    location that is not the destination's puts the passenger at that
    location's index, with reward -1, and the episode goes on. *)
Theorem dropoff_elsewhere s l o row col d f k nrow ncol np nd nf :
  entries (P built) s 5 = Some l -> In o l ->
  decode s = Ok [row; col; 4; d; f] ->
  decode (next_of o) = Ok [nrow; ncol; np; nd; nf] ->
  0 <= k < 4 ->
  Py.getitem locs k = Ok (row, col) ->
  Py.getitem locs d <> Ok (row, col) ->
  np = k /\ reward_of o = -1 /\ done_of o = false.
Proof.
  intros He Ho Hd Hn Hk Hloc Hdest.
  destruct (entry_inv _ _ _ _ _ _ _ _ _ He Ho Hd)
    as ((Hr & Hc & Hp & Hdd & Hf) & _ & _ & Ht & _).
  clear He Ho.
  rewrite transition_dropoff in Ht by lia. cbv zeta in Ht.
  destruct (index_locs k row col Hk Hloc) as [Hin Hidx].
  rewrite Hin, Hidx in Ht. cbn [value_or] in Ht.
  pose proof (getitem_locs d Hdd) as Hg.
  destruct (Py.getitem locs d) as [loc|e]; [|discriminate Hg].
  cbn [value_or] in Ht.
  destruct (Py.pair_eqb (row, col) loc) eqn:E.
  { apply pair_eqb_eq in E. rewrite <- E in Hdest. contradiction. }
  cbn in Ht. injection Ht as <-.
  unfold next_of, reward_of, done_of in *. cbn [fst snd] in *.
  apply decode_succ in Hn; [|unfold valid_state; lia].
  destruct Hn as (_ & _ & -> & _). auto.
Qed.

Lemma dropoff_elsewhere_witness :
  0 = 0 /\ reward_of (1%Q, 21, -1, false) = -1 /\
  done_of (1%Q, 21, -1, false) = false.
Proof.
  apply (dropoff_elsewhere 197 [(1%Q, 21, -1, false)] _ 0 0 1 10 0
           0 0 0 1 10).
  - rewrite built_entries by lia. reflexivity.
  - left. reflexivity.
  - reflexivity.
  - reflexivity.
  - lia.
  - reflexivity.
  - discriminate.
Defined.

End Claims.

(** ** The initial-state distribution *)

Section Distribution.


Lemma check_isd_sound l s :
  check_isd l = true -> 0 <= s < 5500 ->
  Z.of_nat (length l) = 5500 /\
  exists w, l !! Z.to_nat s = Some w /\
            Prim2SF w = (if eligible s then weight_sf else S754_zero false).
Proof.
  unfold check_isd. rewrite andb_true_iff, Z.eqb_eq, forallb_forall.
  intros [Hlen H] Hs. split; [exact Hlen|].
  specialize (H s (proj2 (elem_of_range _ _) Hs)).
  destruct (l !! Z.to_nat s) as [x|]; [|discriminate H].
  exists x. split; [reflexivity|]. apply sf_eqb_eq, H.
Qed.

Lemma isd_built : isd built = normalize (filled.1).
Proof. reflexivity. Qed.








End Distribution.

(** ** Further properties of the codec *)

Section MoreCodec.

Lemma encode_inj r1 c1 p1 d1 f1 r2 c2 p2 d2 f2 :
  valid_state r1 c1 p1 d1 f1 -> valid_state r2 c2 p2 d2 f2 ->
  encode r1 c1 p1 d1 f1 = encode r2 c2 p2 d2 f2 ->
  r1 = r2 /\ c1 = c2 /\ p1 = p2 /\ d1 = d2 /\ f1 = f2.
Proof. unfold valid_state, encode. lia. Qed.

(** Outside [0, 5500) the assertion of [decode] fails. *)
Lemma decode_out_of_range i :
  ~ (0 <= i < 5500) -> decode i = Raise AssertionError.
Proof.
  intros Hi. unfold decode; cbv zeta.
  assert (Hb : (0 <=? i / 11 / 4 / 5 / 5) && (i / 11 / 4 / 5 / 5 <? 5)
               = false).
  { apply andb_false_iff. rewrite Z.leb_gt, Z.ltb_ge.
    assert (Hq : i / 11 / 4 / 5 / 5 = i / 1100).
    { rewrite !Z.div_div by lia. reflexivity. }
    rewrite Hq.
    destruct (Z.lt_ge_cases i 0) as [Hn | Hp].
    - left. apply Z.div_lt_upper_bound; lia.
    - right. apply Z.div_le_lower_bound; lia. }
  rewrite Hb. reflexivity.
Qed.

(** X1: [decode] raises [AssertionError] exactly on the indices outside
    [0, 5500), and returns five components exactly on the indices
    inside. *)
Theorem decode_rejects i :
  (decode i = Raise AssertionError <-> ~ (0 <= i < 5500)) /\
  ((exists row col p d f, decode i = Ok [row; col; p; d; f]) <->
   0 <= i < 5500).
Proof.
  split; split.
  - intros H Hi. destruct (encode_decode i Hi) as (r & c & p & d & f & Hd & _).
    rewrite Hd in H. discriminate H.
  - apply decode_out_of_range.
  - intros (row & col & p & d & f & Hd).
    destruct (decode_inv _ _ _ _ _ _ Hd) as [Hv <-].
    apply encode_range, Hv.
  - intros Hi.
    destruct (encode_decode i Hi) as (r & c & p & d & f & Hd & _). eauto 6.
Qed.

(** X2: on valid states [encode] preserves the lexicographic order of
    (row, column, passenger, destination, fuel) in both directions; in
    particular it is injective. *)
Theorem encode_order r1 c1 p1 d1 f1 r2 c2 p2 d2 f2 :
  valid_state r1 c1 p1 d1 f1 -> valid_state r2 c2 p2 d2 f2 ->
  (encode r1 c1 p1 d1 f1 < encode r2 c2 p2 d2 f2 <->
   lex_lt (r1, c1, p1, d1, f1) (r2, c2, p2, d2, f2)) /\
  (encode r1 c1 p1 d1 f1 = encode r2 c2 p2 d2 f2 ->
   (r1, c1, p1, d1, f1) = (r2, c2, p2, d2, f2)).
Proof.
  intros H1 H2. split.
  - unfold valid_state, encode, lex_lt in *. lia.
  - intros He. destruct (encode_inj _ _ _ _ _ _ _ _ _ _ H1 H2 He)
      as (-> & -> & -> & -> & ->). reflexivity.
Qed.

Lemma encode_order_witness :
  (encode 1 4 4 3 10 < encode 2 0 0 0 0 <->
   lex_lt (1, 4, 4, 3, 10) (2, 0, 0, 0, 0)) /\
  (encode 1 4 4 3 10 = encode 2 0 0 0 0 ->
   (1, 4, 4, 3, 10) = (2, 0, 0, 0, 0)).
Proof. apply encode_order; unfold valid_state; lia. Defined.

End MoreCodec.

(** ** More on the entries of the table *)

Section MoreEntries.

Lemma here_spec row col p :
  (p <? 4) && Py.pair_eqb (row, col) (value_or (0, 0) (Py.getitem locs p))
  = true <->
  0 <= p < 4 /\ Py.getitem locs p = Ok (row, col) \/
  p < 0 /\ (row, col) = value_or (0, 0) (Py.getitem locs p).
Proof.
  rewrite andb_true_iff, Z.ltb_lt, pair_eqb_eq. split.
  - intros [Hp H]. destruct (Z.lt_ge_cases p 0) as [Hn | Hn]; [right; auto|].
    left. split; [lia|]. rewrite getitem_locs by lia. congruence.
  - intros [[Hp H] | [Hp H]]; (split; [lia|]); [|exact H].
    rewrite H. reflexivity.
Qed.

Lemma at_dest_spec row col d :
  0 <= d < 4 ->
  Py.pair_eqb (row, col) (value_or (0, 0) (Py.getitem locs d)) = true <->
  Py.getitem locs d = Ok (row, col).
Proof.
  intros Hd. rewrite pair_eqb_eq. split.
  - intros H. rewrite getitem_locs by lia. congruence.
  - intros H. rewrite H. reflexivity.
Qed.

Lemma contains_index row col :
  Py.contains locs (row, col) = true ->
  exists k, 0 <= k < 4 /\ Py.index locs (row, col) = Ok k /\
            Py.getitem locs k = Ok (row, col).
Proof.
  unfold Py.contains, locs. cbn [existsb].
  rewrite !orb_true_iff, !pair_eqb_eq.
  intros [H | [H | [H | [H | H]]]]; try discriminate H;
    injection H as -> ->;
    [exists 0 | exists 1 | exists 2 | exists 3]; (split; [lia|split; reflexivity]).
Qed.

(** What the entries of the three other actions record. *)
Lemma pickup_entry s l o row col p d f :
  entries (P built) s 4 = Some l -> In o l ->
  decode s = Ok [row; col; p; d; f] ->
  let here :=
    (p <? 4) &&
    Py.pair_eqb (row, col) (value_or (0, 0) (Py.getitem locs p)) in
  valid_state row col p d f /\ s = encode row col p d f /\
  o = (1%Q, encode row col (if here then 4 else p) d f,
       if here then -1 else -10, false).
Proof.
  intros He Ho Hd.
  destruct (entry_inv _ _ _ _ _ _ _ _ _ He Ho Hd)
    as (Hv & Hs & _ & Ht & _).
  clear He Ho. pose proof Hv as (Hr & Hc & Hp & Hdd & Hf).
  rewrite transition_pickup in Ht by lia. cbv zeta in Ht.
  injection Ht as <-. cbv zeta. auto.
Qed.

Lemma dropoff_entry s l o row col p d f :
  entries (P built) s 5 = Some l -> In o l ->
  decode s = Ok [row; col; p; d; f] ->
  let at_dest :=
    Py.pair_eqb (row, col) (value_or (0, 0) (Py.getitem locs d)) &&
    (p =? 4) in
  let at_loc := Py.contains locs (row, col) && (p =? 4) in
  valid_state row col p d f /\ s = encode row col p d f /\
  o = (1%Q,
       encode row col
         (if at_dest then d
          else if at_loc then value_or 0 (Py.index locs (row, col))
          else p) d f,
       if at_dest then 20 else if at_loc then -1 else -10,
       at_dest).
Proof.
  intros He Ho Hd.
  destruct (entry_inv _ _ _ _ _ _ _ _ _ He Ho Hd)
    as (Hv & Hs & _ & Ht & _).
  clear He Ho. pose proof Hv as (Hr & Hc & Hp & Hdd & Hf).
  rewrite transition_dropoff in Ht by lia. cbv zeta in Ht.
  injection Ht as <-. cbv zeta. auto.
Qed.

Lemma refill_entry s l o row col p d f :
  entries (P built) s 6 = Some l -> In o l ->
  decode s = Ok [row; col; p; d; f] ->
  let here := Py.pair_eqb (row, col) fuel_station in
  valid_state row col p d f /\ s = encode row col p d f /\
  o = (1%Q, encode row col p d (if here then 10 else f),
       if here then -1 else -10, false).
Proof.
  intros He Ho Hd.
  destruct (entry_inv _ _ _ _ _ _ _ _ _ He Ho Hd)
    as (Hv & Hs & _ & Ht & _).
  clear He Ho. pose proof Hv as (Hr & Hc & Hp & Hdd & Hf).
  rewrite transition_refill in Ht by lia. cbv zeta in Ht.
  injection Ht as <-. cbv zeta. auto.
Qed.

(** X3: pickup (4).  When the passenger waits at a named location and the
    taxi stands on it, the successor is the same state with the
    passenger in the taxi, reward -1; in every other state the entry is a
    self-loop with reward -10.  Neither ends the episode. *)
Theorem pickup_outcome s l o row col p d f :
  entries (P built) s 4 = Some l -> In o l ->
  decode s = Ok [row; col; p; d; f] ->
  (p < 4 /\ Py.getitem locs p = Ok (row, col) ->
   o = (1%Q, encode row col 4 d f, -1, false)) /\
  (~ (p < 4 /\ Py.getitem locs p = Ok (row, col)) ->
   o = (1%Q, s, -10, false)).
Proof.
  intros He Ho Hd.
  pose proof (pickup_entry _ _ _ _ _ _ _ _ He Ho Hd) as H. cbv zeta in H.
  destruct H as ((Hr & Hc & Hp & Hdd & Hf) & Hs & ->). clear He Ho.
  pose proof (here_spec row col p) as Hh.
  destruct ((p <? 4) &&
            Py.pair_eqb (row, col) (value_or (0, 0) (Py.getitem locs p))).
  - split; [reflexivity|]. intros Hn. exfalso. apply Hn.
    destruct (proj1 Hh eq_refl) as [[? ?] | [? _]]; [split; [lia|assumption] | lia].
  - split; [|rewrite Hs; reflexivity].
    intros [Hlt Hl]. assert (false = true) as Hf'; [|discriminate Hf'].
    apply Hh. left. split; [lia|assumption].
Qed.

Lemma pickup_outcome_witness :
  (0 < 4 /\ Py.getitem locs 0 = Ok (0, 0) ->
   (1%Q, 197, -1, false) = (1%Q, encode 0 0 4 1 10, -1, false)) /\
  (~ (0 < 4 /\ Py.getitem locs 0 = Ok (0, 0)) ->
   (1%Q, 197, -1, false) = (1%Q, 21, -10, false)).
Proof.
  apply (pickup_outcome 21 [(1%Q, 197, -1, false)] (1%Q, 197, -1, false)
           0 0 0 1 10).
  - rewrite built_entries by lia. reflexivity.
  - left. reflexivity.
  - reflexivity.
Defined.

(** X4: refill (6).  On the fuel station (0, 2) the successor is the
    same state with fuel 10, reward -1, whatever the fuel was; anywhere
    else the entry is a self-loop with reward -10. *)
Theorem refill_outcome s l o row col p d f :
  entries (P built) s 6 = Some l -> In o l ->
  decode s = Ok [row; col; p; d; f] ->
  ((row, col) = fuel_station ->
   o = (1%Q, encode row col p d 10, -1, false)) /\
  ((row, col) <> fuel_station -> o = (1%Q, s, -10, false)).
Proof.
  intros He Ho Hd.
  pose proof (refill_entry _ _ _ _ _ _ _ _ He Ho Hd) as H. cbv zeta in H.
  destruct H as (_ & Hs & ->). clear He Ho.
  pose proof (pair_eqb_eq (row, col) fuel_station) as Hh.
  destruct (Py.pair_eqb (row, col) fuel_station).
  - split; [reflexivity|]. intros Hn. exfalso. apply Hn, Hh. reflexivity.
  - split; [|rewrite Hs; reflexivity].
    intros Hy. apply Hh in Hy. discriminate Hy.
Qed.

Lemma refill_outcome_witness :
  ((0, 2) = fuel_station ->
   (1%Q, 461, -1, false) = (1%Q, encode 0 2 0 1 10, -1, false)) /\
  ((0, 2) <> fuel_station -> (1%Q, 461, -1, false) = (1%Q, 454, -10, false)).
Proof.
  apply (refill_outcome 454 [(1%Q, 461, -1, false)] (1%Q, 461, -1, false)
           0 2 0 1 3).
  - rewrite built_entries by lia. reflexivity.
  - left. reflexivity.
  - reflexivity.
Defined.

(** X5: dropoff (5).  With the passenger in the taxi on the destination's
    location the successor has the passenger at the destination, reward
    20, terminal.  With the passenger not in the taxi, or the taxi on no
    named location, the entry is a self-loop with reward -10. *)
Theorem dropoff_outcome s l o row col p d f :
  entries (P built) s 5 = Some l -> In o l ->
  decode s = Ok [row; col; p; d; f] ->
  (p = 4 /\ Py.getitem locs d = Ok (row, col) ->
   o = (1%Q, encode row col d d f, 20, true)) /\
  (p <> 4 \/ Py.contains locs (row, col) = false ->
   o = (1%Q, s, -10, false)).
Proof.
  intros He Ho Hd.
  pose proof (dropoff_entry _ _ _ _ _ _ _ _ He Ho Hd) as H. cbv zeta in H.
  destruct H as ((Hr & Hc & Hp & Hdd & Hf) & Hs & ->). clear He Ho.
  pose proof (at_dest_spec row col d Hdd) as Hh.
  split.
  - intros [-> Hl]. rewrite (proj2 Hh Hl). reflexivity.
  - intros Hn.
    assert (Hp4 : Py.contains locs (row, col) && (p =? 4) = false).
    { apply andb_false_iff. destruct Hn as [Hn | Hn]; [right | left; exact Hn].
      apply Z.eqb_neq, Hn. }
    assert (Hd4 : Py.pair_eqb (row, col)
                    (value_or (0, 0) (Py.getitem locs d)) && (p =? 4) = false).
    { apply andb_false_iff. destruct Hn as [Hn | Hn].
      - right. apply Z.eqb_neq, Hn.
      - left. destruct (Py.pair_eqb (row, col)
                          (value_or (0, 0) (Py.getitem locs d))) eqn:E;
          [|reflexivity].
        apply (at_dest_spec row col d Hdd) in E.
        destruct (index_locs d row col Hdd E) as [Hc' _].
        congruence. }
    rewrite Hd4, Hp4, Hs. reflexivity.
Qed.

Lemma dropoff_outcome_witness :
  (4 = 4 /\ Py.getitem locs 1 = Ok (0, 4) ->
   (1%Q, 945, 20, true) = (1%Q, encode 0 4 1 1 10, 20, true)) /\
  (4 <> 4 \/ Py.contains locs (0, 4) = false ->
   (1%Q, 945, 20, true) = (1%Q, 1077, -10, false)).
Proof.
  apply (dropoff_outcome 1077 [(1%Q, 945, 20, true)] (1%Q, 945, 20, true)
           0 4 4 1 10).
  - rewrite built_entries by lia. reflexivity.
  - left. reflexivity.
  - reflexivity.
Defined.


(** Reading a recorded successor back, action by action. *)
Lemma move_read s a l o row col p d f nrow ncol np nd nf :
  entries (P built) s a = Some l -> In o l ->
  decode s = Ok [row; col; p; d; f] ->
  decode (next_of o) = Ok [nrow; ncol; np; nd; nf] ->
  0 <= a <= 3 ->
  let changed :=
    negb (Py.pair_eqb (next_row row a, next_col row col a) (row, col)) in
  valid_state row col p d f /\
  nrow = next_row row a /\ ncol = next_col row col a /\ np = p /\ nd = d /\
  nf = (if changed then Z.max 0 (f - 1) else f).
Proof.
  intros He Ho Hd Hn Ha.
  destruct (entry_inv _ _ _ _ _ _ _ _ _ He Ho Hd)
    as (Hv & _ & _ & Ht & _).
  clear He Ho. pose proof Hv as (Hr & Hc & Hp & Hdd & Hf).
  rewrite transition_move in Ht by lia. cbv zeta in Ht.
  injection Ht as <-. unfold next_of in Hn. cbn [fst snd] in Hn.
  apply decode_succ in Hn.
  - destruct Hn as (-> & -> & -> & -> & ->). cbv zeta. auto 10.
  - pose proof (next_row_range row a Hr).
    pose proof (next_col_range row col a Hc).
    unfold valid_state. case_ifs; lia.
Qed.

Lemma pickup_read s l o row col p d f nrow ncol np nd nf :
  entries (P built) s 4 = Some l -> In o l ->
  decode s = Ok [row; col; p; d; f] ->
  decode (next_of o) = Ok [nrow; ncol; np; nd; nf] ->
  let here :=
    (p <? 4) &&
    Py.pair_eqb (row, col) (value_or (0, 0) (Py.getitem locs p)) in
  nrow = row /\ ncol = col /\ np = (if here then 4 else p) /\ nd = d /\
  nf = f.
Proof.
  intros He Ho Hd Hn.
  pose proof (pickup_entry _ _ _ _ _ _ _ _ He Ho Hd) as H. cbv zeta in H.
  destruct H as ((Hr & Hc & Hp & Hdd & Hf) & _ & ->). clear He Ho.
  unfold next_of in Hn. cbn [fst snd] in Hn.
  apply decode_succ in Hn.
  - destruct Hn as (-> & -> & -> & -> & ->). cbv zeta. auto 10.
  - unfold valid_state. case_ifs; lia.
Qed.

Lemma dropoff_read s l o row col p d f nrow ncol np nd nf :
  entries (P built) s 5 = Some l -> In o l ->
  decode s = Ok [row; col; p; d; f] ->
  decode (next_of o) = Ok [nrow; ncol; np; nd; nf] ->
  let at_dest :=
    Py.pair_eqb (row, col) (value_or (0, 0) (Py.getitem locs d)) &&
    (p =? 4) in
  let at_loc := Py.contains locs (row, col) && (p =? 4) in
  nrow = row /\ ncol = col /\
  np = (if at_dest then d
        else if at_loc then value_or 0 (Py.index locs (row, col))
        else p) /\
  nd = d /\ nf = f.
Proof.
  intros He Ho Hd Hn.
  pose proof (dropoff_entry _ _ _ _ _ _ _ _ He Ho Hd) as H. cbv zeta in H.
  destruct H as ((Hr & Hc & Hp & Hdd & Hf) & _ & ->). clear He Ho.
  unfold next_of in Hn. cbn [fst snd] in Hn.
  apply decode_succ in Hn.
  - destruct Hn as (-> & -> & -> & -> & ->). cbv zeta. auto 10.
  - pose proof (index_range row col Hr Hc).
    unfold valid_state. case_ifs; lia.
Qed.

Lemma refill_read s l o row col p d f nrow ncol np nd nf :
  entries (P built) s 6 = Some l -> In o l ->
  decode s = Ok [row; col; p; d; f] ->
  decode (next_of o) = Ok [nrow; ncol; np; nd; nf] ->
  let here := Py.pair_eqb (row, col) fuel_station in
  nrow = row /\ ncol = col /\ np = p /\ nd = d /\
  nf = (if here then 10 else f) /\ 0 <= f < 11.
Proof.
  intros He Ho Hd Hn.
  pose proof (refill_entry _ _ _ _ _ _ _ _ He Ho Hd) as H. cbv zeta in H.
  destruct H as ((Hr & Hc & Hp & Hdd & Hf) & _ & ->). clear He Ho.
  unfold next_of in Hn. cbn [fst snd] in Hn.
  apply decode_succ in Hn.
  - destruct Hn as (-> & -> & -> & -> & ->). cbv zeta. auto 10.
  - unfold valid_state. case_ifs; lia.
Qed.

Lemma action_cases a :
  0 <= a < 7 -> 0 <= a <= 3 \/ a = 4 \/ a = 5 \/ a = 6.
Proof. lia. Qed.

(** One step of a movement action. *)
Lemma next_pos_step row col a :
  0 <= row < 5 -> 0 <= col < 5 -> 0 <= a <= 3 ->
  (a <= 1 -> next_col row col a = col) /\
  (2 <= a -> next_row row a = row) /\
  Z.abs (next_row row a - row) + Z.abs (next_col row col a - col) <= 1.
Proof.
  intros Hr Hc Ha. unfold next_row, next_col, max_row, max_col, num_rows,
    num_columns.
  enum4 a; cbn [Z.eqb Pos.eqb andb]; case_ifs; lia.
Qed.

(** A movement that changed the position is undone by the opposite
    action. *)
Lemma next_back row col a :
  0 <= row < 5 -> 0 <= col < 5 -> 0 <= a <= 3 ->
  (next_row row a, next_col row col a) <> (row, col) ->
  (next_row (next_row row a) (opposite a),
   next_col (next_row row a) (next_col row col a) (opposite a)) = (row, col).
Proof.
  intros Hr Hc Ha. enum4 a; enum5 row; enum5 col; intros H;
    first [reflexivity | exfalso; apply H; reflexivity].
Qed.

(** X6: fuel goes down only by a movement that changes the position,
    and then by exactly one unit; it goes up only by a refill on the fuel
    station, and then to 10. *)
Theorem fuel_changes s a l o row col p d f nrow ncol np nd nf :
  entries (P built) s a = Some l -> In o l ->
  decode s = Ok [row; col; p; d; f] ->
  decode (next_of o) = Ok [nrow; ncol; np; nd; nf] ->
  (nf < f -> nf = f - 1 /\ 0 <= a <= 3 /\ (nrow, ncol) <> (row, col)) /\
  (f < nf -> nf = 10 /\ a = 6 /\ (row, col) = fuel_station).
Proof.
  intros He Ho Hd Hn.
  destruct (action_cases a (proj2 (built_keys _ _ _ He)))
    as [Ha | [-> | [-> | ->]]].
  - pose proof (move_read _ _ _ _ _ _ _ _ _ _ _ _ _ _ He Ho Hd Hn Ha) as H.
    cbv zeta in H.
    destruct H as ((_ & _ & _ & _ & Hf) & -> & -> & _ & _ & ->).
    clear He Ho.
    destruct (Py.pair_eqb (next_row row a, next_col row col a) (row, col))
      eqn:E; cbn [negb]; split; intros Hlt; try lia.
    split; [lia|]. split; [lia|]. intros Heq.
    apply pair_eqb_eq in Heq. congruence.
  - pose proof (pickup_read _ _ _ _ _ _ _ _ _ _ _ _ _ He Ho Hd Hn) as H.
    cbv zeta in H. destruct H as (_ & _ & _ & _ & ->). lia.
  - pose proof (dropoff_read _ _ _ _ _ _ _ _ _ _ _ _ _ He Ho Hd Hn) as H.
    cbv zeta in H. destruct H as (_ & _ & _ & _ & ->). lia.
  - pose proof (refill_read _ _ _ _ _ _ _ _ _ _ _ _ _ He Ho Hd Hn) as H.
    cbv zeta in H. destruct H as (_ & _ & _ & _ & -> & Hf). clear He Ho.
    destruct (Py.pair_eqb (row, col) fuel_station) eqn:E;
      split; intros Hlt; try lia.
    apply pair_eqb_eq in E. auto.
Qed.

Lemma fuel_changes_witness :
  (4 < 5 -> 4 = 5 - 1 /\ 0 <= 2 <= 3 /\ (2, 3) <> (2, 2)) /\
  (5 < 4 -> 4 = 10 /\ 2 = 6 /\ (2, 2) = fuel_station).
Proof.
  apply (fuel_changes 2656 2 [(1%Q, 2875, -1, false)] (1%Q, 2875, -1, false)
           2 2 0 1 5
           2 3 0 1 4).
  - rewrite built_entries by lia. reflexivity.
  - left. reflexivity.
  - reflexivity.
  - reflexivity.
Defined.

(** X7: pickup, dropoff and refill never move the taxi; moving south or
    north keeps the column, moving east or west keeps the row; and no
    action moves the taxi by more than one cell. *)
Theorem position_changes s a l o row col p d f nrow ncol np nd nf :
  entries (P built) s a = Some l -> In o l ->
  decode s = Ok [row; col; p; d; f] ->
  decode (next_of o) = Ok [nrow; ncol; np; nd; nf] ->
  (4 <= a -> (nrow, ncol) = (row, col)) /\
  (a <= 1 -> ncol = col) /\
  (2 <= a -> nrow = row) /\
  Z.abs (nrow - row) + Z.abs (ncol - col) <= 1.
Proof.
  intros He Ho Hd Hn.
  destruct (action_cases a (proj2 (built_keys _ _ _ He)))
    as [Ha | [-> | [-> | ->]]].
  - pose proof (move_read _ _ _ _ _ _ _ _ _ _ _ _ _ _ He Ho Hd Hn Ha) as H.
    cbv zeta in H.
    destruct H as ((Hr & Hc & _) & -> & -> & _).
    destruct (next_pos_step row col a Hr Hc Ha) as (H1 & H2 & H3).
    repeat split; auto. lia.
  - pose proof (pickup_read _ _ _ _ _ _ _ _ _ _ _ _ _ He Ho Hd Hn) as H.
    cbv zeta in H. destruct H as (-> & -> & _).
    repeat split; auto; lia.
  - pose proof (dropoff_read _ _ _ _ _ _ _ _ _ _ _ _ _ He Ho Hd Hn) as H.
    cbv zeta in H. destruct H as (-> & -> & _).
    repeat split; auto; lia.
  - pose proof (refill_read _ _ _ _ _ _ _ _ _ _ _ _ _ He Ho Hd Hn) as H.
    cbv zeta in H. destruct H as (-> & -> & _).
    repeat split; auto; lia.
Qed.

Lemma position_changes_witness :
  (4 <= 2 -> (2, 3) = (2, 2)) /\
  (2 <= 1 -> 3 = 2) /\
  (2 <= 2 -> 2 = 2) /\
  Z.abs (2 - 2) + Z.abs (3 - 2) <= 1.
Proof.
  apply (position_changes 2656 2 [(1%Q, 2875, -1, false)] (1%Q, 2875, -1, false)
           2 2 0 1 5
           2 3 0 1 4).
  - rewrite built_entries by lia. reflexivity.
  - left. reflexivity.
  - reflexivity.
  - reflexivity.
Defined.

(** X8: the passenger's location changes only when the passenger is
    picked up at the named location where the taxi stands, or dropped
    from the taxi onto the named location where the taxi stands. *)
Theorem passenger_changes s a l o row col p d f nrow ncol np nd nf :
  entries (P built) s a = Some l -> In o l ->
  decode s = Ok [row; col; p; d; f] ->
  decode (next_of o) = Ok [nrow; ncol; np; nd; nf] ->
  np <> p ->
  (a = 4 /\ np = 4 /\ Py.getitem locs p = Ok (row, col)) \/
  (a = 5 /\ p = 4 /\ Py.getitem locs np = Ok (row, col)).
Proof.
  intros He Ho Hd Hn Hne.
  destruct (decode_inv _ _ _ _ _ _ Hd) as [(_ & _ & Hp & Hdd & _) _].
  destruct (action_cases a (proj2 (built_keys _ _ _ He)))
    as [Ha | [-> | [-> | ->]]].
  - pose proof (move_read _ _ _ _ _ _ _ _ _ _ _ _ _ _ He Ho Hd Hn Ha) as H.
    cbv zeta in H. destruct H as (_ & _ & _ & Hnp & _). contradiction.
  - pose proof (pickup_read _ _ _ _ _ _ _ _ _ _ _ _ _ He Ho Hd Hn) as H.
    cbv zeta in H. destruct H as (_ & _ & Hnp & _). clear He Ho.
    pose proof (here_spec row col p) as Hh.
    destruct ((p <? 4) &&
              Py.pair_eqb (row, col) (value_or (0, 0) (Py.getitem locs p)));
      [|contradiction].
    left. destruct (proj1 Hh eq_refl) as [[_ Hl] | [Hlt _]]; [auto | lia].
  - pose proof (dropoff_read _ _ _ _ _ _ _ _ _ _ _ _ _ He Ho Hd Hn) as H.
    cbv zeta in H. destruct H as (_ & _ & Hnp & _). clear He Ho.
    right. split; [reflexivity|].
    destruct (Py.pair_eqb (row, col) (value_or (0, 0) (Py.getitem locs d)))
      eqn:E1; destruct (p =? 4) eqn:E2; cbn [andb] in Hnp;
      rewrite ?andb_false_r in Hnp; try contradiction;
      apply Z.eqb_eq in E2.
    + split; [exact E2|]. rewrite Hnp.
      apply (at_dest_spec row col d Hdd), E1.
    + destruct (Py.contains locs (row, col)) eqn:E3; cbn [andb] in Hnp;
        [|contradiction].
      destruct (contains_index row col E3) as (k & _ & Hk & Hl).
      rewrite Hk in Hnp. cbn [value_or] in Hnp. rewrite Hnp. auto.
  - pose proof (refill_read _ _ _ _ _ _ _ _ _ _ _ _ _ He Ho Hd Hn) as H.
    cbv zeta in H. destruct H as (_ & _ & Hnp & _). contradiction.
Qed.

Lemma passenger_changes_witness :
  (4 = 4 /\ 4 = 4 /\ Py.getitem locs 0 = Ok (0, 0)) \/
  (4 = 5 /\ 0 = 4 /\ Py.getitem locs 4 = Ok (0, 0)).
Proof.
  apply (passenger_changes 21 4 [(1%Q, 197, -1, false)] (1%Q, 197, -1, false)
           0 0 0 1 10
           0 0 4 1 10).
  - rewrite built_entries by lia. reflexivity.
  - left. reflexivity.
  - reflexivity.
  - reflexivity.
  - lia.
Defined.

(** X9: a movement that changed the taxi's position is undone by the
    opposite action (south/north, east/west): the walls of the map block
    both directions or neither. *)
Theorem move_reversible s a l o row col p d f nrow ncol np nd nf
    l' o' row' col' p' d' f' :
  entries (P built) s a = Some l -> In o l ->
  decode s = Ok [row; col; p; d; f] ->
  decode (next_of o) = Ok [nrow; ncol; np; nd; nf] ->
  0 <= a <= 3 ->
  (nrow, ncol) <> (row, col) ->
  entries (P built) (next_of o) (opposite a) = Some l' -> In o' l' ->
  decode (next_of o') = Ok [row'; col'; p'; d'; f'] ->
  (row', col') = (row, col).
Proof.
  intros He Ho Hd Hn Ha Hch He' Ho' Hn'.
  pose proof (move_read _ _ _ _ _ _ _ _ _ _ _ _ _ _ He Ho Hd Hn Ha) as H.
  cbv zeta in H. destruct H as ((Hr & Hc & _) & Hnr & Hnc & _).
  assert (Ha' : 0 <= opposite a <= 3).
  { unfold opposite. case_ifs; lia. }
  pose proof (move_read _ _ _ _ _ _ _ _ _ _ _ _ _ _ He' Ho' Hn Hn' Ha') as H'.
  cbv zeta in H'. destruct H' as (_ & -> & -> & _).
  clear He Ho He' Ho'. subst nrow ncol.
  apply next_back; assumption.
Qed.

Lemma move_reversible_witness : (2, 2) = (2, 2).
Proof.
  apply (move_reversible 2656 2 [(1%Q, 2875, -1, false)] (1%Q, 2875, -1, false)
           2 2 0 1 5
           2 3 0 1 4 [(1%Q, 2654, -1, false)] (1%Q, 2654, -1, false)
           2 2 0 1 3).
  - rewrite built_entries by lia. reflexivity.
  - left. reflexivity.
  - reflexivity.
  - reflexivity.
  - lia.
  - discriminate.
  - rewrite built_entries by (unfold next_of; cbn; lia). reflexivity.
  - left. reflexivity.
  - reflexivity.
Defined.


(** X10: with the passenger in the taxi on a named location, a dropoff
    followed by a pickup leads back to the same state (also when the
    dropoff was the delivery); the pickup has reward -1. *)
Theorem dropoff_then_pickup s l o row col d f l' o' :
  entries (P built) s 5 = Some l -> In o l ->
  decode s = Ok [row; col; 4; d; f] ->
  Py.contains locs (row, col) = true ->
  entries (P built) (next_of o) 4 = Some l' -> In o' l' ->
  o' = (1%Q, s, -1, false).
Proof.
  intros He Ho Hd Hc He' Ho'.
  pose proof (dropoff_entry _ _ _ _ _ _ _ _ He Ho Hd) as H. cbv zeta in H.
  destruct H as ((Hr & Hcc & Hp & Hdd & Hf) & Hs & ->). clear He Ho.
  rewrite Hc in He'. cbn [andb Z.eqb Pos.eqb] in He'.
  rewrite andb_true_r in He'.
  unfold next_of in He'. cbn [fst snd] in He'.
  destruct (contains_index row col Hc) as (k & Hk & Hi & Hl).
  rewrite Hi in He'. cbn [value_or] in He'.
  set (q := if Py.pair_eqb (row, col) (value_or (0, 0) (Py.getitem locs d))
            then d else k) in He'.
  assert (Hq : 0 <= q < 4 /\ Py.getitem locs q = Ok (row, col)).
  { subst q.
    destruct (Py.pair_eqb (row, col) (value_or (0, 0) (Py.getitem locs d)))
      eqn:E; [|auto].
    split; [lia|]. apply (at_dest_spec row col d Hdd), E. }
  destruct Hq as [Hq Hlq].
  assert (Hd' : decode (encode row col q d f) = Ok [row; col; q; d; f]).
  { apply decode_encode. unfold valid_state. lia. }
  pose proof (pickup_entry _ _ _ _ _ _ _ _ He' Ho' Hd') as H.
  cbv zeta in H. destruct H as (_ & _ & ->).
  rewrite (proj2 (here_spec row col q)) by (left; auto).
  rewrite Hs. reflexivity.
Qed.

Lemma dropoff_then_pickup_witness :
  (1%Q, 4605, -1, false) = (1%Q, 4605, -1, false).
Proof.
  apply (dropoff_then_pickup 4605 [(1%Q, 4517, 20, true)]
           (1%Q, 4517, 20, true) 4 0 2 7 [(1%Q, 4605, -1, false)]).
  - rewrite built_entries by lia. reflexivity.
  - left. reflexivity.
  - reflexivity.
  - reflexivity.
  - rewrite built_entries by (unfold next_of; cbn; lia). reflexivity.
  - left. reflexivity.
Defined.

(** X11: a pickup at the passenger's location followed by a dropoff on
    the spot leads back to the same state; that dropoff ends the episode
    exactly when the passenger was waiting at the destination. *)
Theorem pickup_then_dropoff s l o row col p d f l' o' :
  entries (P built) s 4 = Some l -> In o l ->
  decode s = Ok [row; col; p; d; f] ->
  p < 4 -> Py.getitem locs p = Ok (row, col) ->
  entries (P built) (next_of o) 5 = Some l' -> In o' l' ->
  next_of o' = s /\ (done_of o' = true <-> p = d).
Proof.
  intros He Ho Hd Hp4 Hl He' Ho'.
  pose proof (pickup_entry _ _ _ _ _ _ _ _ He Ho Hd) as H. cbv zeta in H.
  destruct H as ((Hr & Hc & Hp & Hdd & Hf) & Hs & ->). clear He Ho.
  rewrite (proj2 (here_spec row col p)) in He' by (left; split; [lia|auto]).
  unfold next_of in He'. cbn [fst snd] in He'.
  assert (Hd' : decode (encode row col 4 d f) = Ok [row; col; 4; d; f]).
  { apply decode_encode. unfold valid_state. lia. }
  pose proof (dropoff_entry _ _ _ _ _ _ _ _ He' Ho' Hd') as H.
  cbv zeta in H. destruct H as (_ & _ & ->). clear He' Ho'.
  assert (Hpp : 0 <= p < 4) by lia.
  destruct (index_locs p row col Hpp Hl) as [Hin Hidx].
  rewrite Hin, Hidx. cbn [andb Z.eqb Pos.eqb value_or].
  rewrite !andb_true_r. unfold next_of, done_of. cbn [fst snd].
  pose proof (at_dest_spec row col d Hdd) as Hh.
  destruct (Py.pair_eqb (row, col) (value_or (0, 0) (Py.getitem locs d))).
  - assert (Hpd : p = d).
    { destruct (index_locs d row col Hdd (proj1 Hh eq_refl)) as [_ Hidx'].
      congruence. }
    split; [rewrite Hs, Hpd; reflexivity | tauto].
  - split; [rewrite Hs; reflexivity|]. split; [discriminate|].
    intros ->. exact (proj2 Hh Hl).
Qed.

Lemma pickup_then_dropoff_witness :
  next_of (1%Q, 4517, 20, true) = 4517 /\
  (done_of (1%Q, 4517, 20, true) = true <-> 2 = 2).
Proof.
  apply (pickup_then_dropoff 4517 [(1%Q, 4605, -1, false)]
           (1%Q, 4605, -1, false) 4 0 2 2 7 [(1%Q, 4517, 20, true)]).
  - rewrite built_entries by lia. reflexivity.
  - left. reflexivity.
  - reflexivity.
  - lia.
  - reflexivity.
  - rewrite built_entries by (unfold next_of; cbn; lia). reflexivity.
  - left. reflexivity.
Defined.

(** X12: what the constructor hands to the driver is consistent: the
    table has an entry for a state and an action exactly when the state
    is in [0, nS) and the action in [0, nA), with nS = 5500 and nA = 7,
    and the initial distribution has one weight per state. *)
Theorem table_domain s a :
  (is_Some (entries (P built) s a) <-> 0 <= s < nS built /\ 0 <= a < nA built)
  /\ nS built = 5500 /\ nA built = 7 /\
  Z.of_nat (length (isd built)) = nS built.
Proof.
  split; [split|].
  - intros [l Hl]. exact (built_keys _ _ _ Hl).
  - intros [Hs Ha]. exists (cell s a). apply built_entries; assumption.
  - split; [reflexivity|]. split; [reflexivity|].
    assert (H0 : 0 <= 0 < 5500) by lia.
    destruct (check_isd_sound _ 0 filled_isd H0) as [Hlen _].
    rewrite isd_built. exact Hlen.
Qed.

End MoreEntries.

(** ** Rendering *)

Section Rendering.

Variable colorize : string -> string -> bool -> bool -> string.

(** Non-negative indices into a list. *)
Lemma getitem_nonneg {A} (l : list A) i :
  0 <= i ->
  Py.getitem l i =
  match l !! Z.to_nat i with Some x => Ok x | None => Raise IndexError end.
Proof.
  intros Hi. unfold Py.getitem, Py.norm_index.
  destruct (Z.ltb_spec i (Z.of_nat (length l))) as [Hlt | Hge].
  - rewrite (proj2 (Z.leb_le 0 i) Hi). reflexivity.
  - rewrite andb_false_r.
    rewrite (proj2 (Z.ltb_ge i 0)) by lia. rewrite andb_false_r.
    cbn [bind]. rewrite (proj2 (lookup_ge_None l (Z.to_nat i))) by lia.
    reflexivity.
Qed.

Lemma setitem_nonneg {A} (l : list A) i x :
  0 <= i ->
  Py.setitem l i x =
  if i <? Z.of_nat (length l) then Ok (<[Z.to_nat i := x]> l)
  else Raise IndexError.
Proof.
  intros Hi. unfold Py.setitem, Py.norm_index.
  destruct (Z.ltb_spec i (Z.of_nat (length l))) as [Hlt | Hge].
  - rewrite (proj2 (Z.leb_le 0 i) Hi). reflexivity.
  - rewrite andb_false_r.
    rewrite (proj2 (Z.ltb_ge i 0)) by lia. rewrite andb_false_r.
    reflexivity.
Qed.

Lemma getitem2_nonneg {A} (a : list (list A)) i j :
  0 <= i -> 0 <= j ->
  Py.getitem2 a i j =
  match a !! Z.to_nat i with
  | Some row =>
      match row !! Z.to_nat j with Some x => Ok x | None => Raise IndexError end
  | None => Raise IndexError
  end.
Proof.
  intros Hi Hj. unfold Py.getitem2. rewrite getitem_nonneg by assumption.
  destruct (a !! Z.to_nat i); cbn [bind]; [|reflexivity].
  apply getitem_nonneg, Hj.
Qed.

(** Painting a cell at non-negative coordinates. *)
Lemma paint_cell_nonneg out i j f :
  0 <= i -> 0 <= j ->
  paint_cell out i j f =
  match out !! Z.to_nat i with
  | Some row =>
      match row !! Z.to_nat j with
      | Some x => Ok (<[Z.to_nat i := <[Z.to_nat j := f x]> row]> out)
      | None => Raise IndexError
      end
  | None => Raise IndexError
  end.
Proof.
  intros Hi Hj. unfold paint_cell. rewrite getitem_nonneg by assumption.
  destruct (out !! Z.to_nat i) as [row|] eqn:Er; cbn [bind]; [|reflexivity].
  rewrite getitem_nonneg by assumption.
  destruct (row !! Z.to_nat j) as [x|] eqn:Ex; cbn [bind]; [|reflexivity].
  rewrite setitem_nonneg by assumption.
  apply lookup_lt_Some in Ex. apply lookup_lt_Some in Er.
  rewrite (proj2 (Z.ltb_lt j _)) by lia. cbn [bind].
  rewrite setitem_nonneg by assumption.
  rewrite (proj2 (Z.ltb_lt i _)) by lia. reflexivity.
Qed.

Lemma paint_cell_other out i j f out' i' j' :
  0 <= i -> 0 <= j -> 0 <= i' -> 0 <= j' ->
  paint_cell out i j f = Ok out' ->
  (i', j') <> (i, j) ->
  Py.getitem2 out' i' j' = Py.getitem2 out i' j'.
Proof.
  intros Hi Hj Hi' Hj' Hp Hne. rewrite paint_cell_nonneg in Hp by assumption.
  rewrite !getitem2_nonneg by assumption.
  destruct (out !! Z.to_nat i) as [row|] eqn:Er; [|discriminate Hp].
  destruct (row !! Z.to_nat j) as [x|] eqn:Ex; [|discriminate Hp].
  injection Hp as <-.
  destruct (decide (Z.to_nat i' = Z.to_nat i)) as [E | E].
  - rewrite E, list_lookup_insert_eq by (eapply lookup_lt_Some; eauto).
    rewrite Er.
    rewrite list_lookup_insert_ne; [reflexivity|].
    intros E'. apply Hne. f_equal; lia.
  - rewrite list_lookup_insert_ne by auto. reflexivity.
Qed.

Lemma paint_cell_same out i j f out' :
  0 <= i -> 0 <= j ->
  paint_cell out i j f = Ok out' ->
  exists x, Py.getitem2 out i j = Ok x /\ Py.getitem2 out' i j = Ok (f x).
Proof.
  intros Hi Hj Hp. rewrite paint_cell_nonneg in Hp by assumption.
  rewrite !getitem2_nonneg by assumption.
  destruct (out !! Z.to_nat i) as [row|] eqn:Er; [|discriminate Hp].
  destruct (row !! Z.to_nat j) as [x|] eqn:Ex; [|discriminate Hp].
  injection Hp as <-. exists x. split; [reflexivity|].
  rewrite list_lookup_insert_eq by (eapply lookup_lt_Some; eauto).
  rewrite list_lookup_insert_eq by (eapply lookup_lt_Some; eauto).
  reflexivity.
Qed.


Lemma locs_nonneg k loc :
  0 <= k < 4 -> Py.getitem locs k = Ok loc -> 0 <= loc.1 /\ 0 <= loc.2.
Proof.
  intros Hk. enum4 k; intros H; injection H as <-; cbn; lia.
Qed.

Lemma string_app_assoc (a b c : string) :
  String.append (String.append a b) c = String.append a (String.append b c).
Proof.
  induction a as [|x a IH]; [reflexivity|].
  change (String x (String.append (String.append a b) c) =
          String x (String.append a (String.append b c))).
  rewrite IH. reflexivity.
Qed.

(** On a state that decodes, every cell [render] paints exists. *)
Lemma render_grid_ok s row col p d f :
  decode s = Ok [row; col; p; d; f] ->
  exists out, render_grid colorize s = Ok out.
Proof.
  intros Hd. destruct (decode_inv _ _ _ _ _ _ Hd) as [(Hr & Hc & Hp & Hdd & _) _].
  unfold render_grid. rewrite Hd. cbn [bind].
  enum5 row; enum5 col; enum5 p; enum4 d; eexists; reflexivity.
Qed.

(** The three paintings of [render_grid], one after the other. *)
Lemma render_grid_steps s row col p d f out :
  decode s = Ok [row; col; p; d; f] ->
  render_grid colorize s = Ok out ->
  exists o1 o2 dloc,
    Py.getitem locs d = Ok dloc /\
    paint_cell plain_grid (1 + row) (2 * col + 1)
      (fun x => if p <? 4 then colorize x "yellow" false true
                else colorize (ul x) "green" false true) = Ok o1 /\
    (if p <? 4 then
       exists ploc, Py.getitem locs p = Ok ploc /\
         paint_cell o1 (1 + ploc.1) (2 * ploc.2 + 1)
           (fun x => colorize x "blue" true false) = Ok o2
     else o2 = o1) /\
    paint_cell o2 (1 + dloc.1) (2 * dloc.2 + 1)
      (fun x => colorize x "magenta" false false) = Ok out.
Proof.
  intros Hd. unfold render_grid. rewrite Hd. cbn [bind].
  destruct (p <? 4) eqn:Ep.
  - destruct (paint_cell plain_grid _ _ _) as [o1|] eqn:E1; cbn [bind];
      [|discriminate].
    destruct (Py.getitem locs p) as [ploc|] eqn:Elp; cbn [bind];
      [|discriminate].
    destruct (paint_cell o1 _ _ _) as [o2|] eqn:E2; cbn [bind];
      [|discriminate].
    destruct (Py.getitem locs d) as [dloc|] eqn:Eld; cbn [bind];
      [|discriminate].
    intros E3. exists o1, o2, dloc. eauto 10.
  - destruct (paint_cell plain_grid _ _ _) as [o1|] eqn:E1; cbn [bind];
      [|discriminate].
    destruct (Py.getitem locs d) as [dloc|] eqn:Eld; cbn [bind];
      [|discriminate].
    intros E3. exists o1, o1, dloc. eauto 10.
Qed.

(** X13: [render] refuses a state outside [0, 5500) with
    [AssertionError], in both modes, before anything is written. *)
Theorem render_rejects stdout s lastaction m :
  ~ (0 <= s < 5500) ->
  render colorize stdout s lastaction m = (stdout, Raise AssertionError).
Proof.
  intros Hs. unfold render, render_grid.
  rewrite (decode_out_of_range s Hs). reflexivity.
Qed.

(** X14: on a state of [0, 5500), with no last action or one of the
    seven actions, [render] succeeds; mode [ansi] returns a text and
    leaves [sys.stdout] alone, mode [human] returns [None] and appends
    exactly that text to [sys.stdout]. *)
Theorem render_modes stdout s lastaction :
  0 <= s < 5500 ->
  (forall a, lastaction = Some a -> 0 <= a < 7) ->
  exists text,
    render colorize stdout s lastaction ansi = (stdout, Ok (Some text)) /\
    render colorize stdout s lastaction human =
      (String.append stdout text, Ok None).
Proof.
  intros Hs Hla.
  destruct (encode_decode s Hs) as (row & col & p & d & f & Hd & _).
  destruct (render_grid_ok s row col p d f Hd) as [out Hout].
  assert (Hline : exists line, action_line lastaction = Ok line).
  { destruct lastaction as [a|]; [|eexists; reflexivity].
    specialize (Hla a eq_refl). unfold action_line.
    assert (Ha : a = 0 \/ a = 1 \/ a = 2 \/ a = 3 \/ a = 4 \/ a = 5 \/ a = 6)
      by lia.
    destruct Ha as [-> | [-> | [-> | [-> | [-> | [-> | ->]]]]]];
      eexists; reflexivity. }
  destruct Hline as [line Hline].
  unfold render. rewrite Hout, Hline.
  eexists. split; [reflexivity|].
  rewrite string_app_assoc. reflexivity.
Qed.

(** X15: the rendering does not show the fuel: two valid states that
    differ only in their fuel render alike. *)
Theorem render_ignores_fuel stdout row col p d f f' lastaction m :
  valid_state row col p d f -> 0 <= f' < 11 ->
  render colorize stdout (encode row col p d f') lastaction m =
  render colorize stdout (encode row col p d f) lastaction m.
Proof.
  intros Hv Hf'.
  assert (Hv' : valid_state row col p d f').
  { unfold valid_state in *. lia. }
  unfold render, render_grid.
  rewrite (decode_encode _ _ _ _ _ Hv), (decode_encode _ _ _ _ _ Hv').
  reflexivity.
Qed.

(** X16: [render] changes the character map only at the cells of the
    taxi, of the waiting passenger and of the destination: every other
    cell of the grid it builds is the cell of the map. *)
Theorem render_grid_frame s row col p d f out i j :
  decode s = Ok [row; col; p; d; f] ->
  render_grid colorize s = Ok out ->
  0 <= i -> 0 <= j ->
  (i, j) <> cell_of (row, col) ->
  (forall loc, p < 4 -> Py.getitem locs p = Ok loc -> (i, j) <> cell_of loc) ->
  (forall loc, Py.getitem locs d = Ok loc -> (i, j) <> cell_of loc) ->
  Py.getitem2 out i j = Py.getitem2 plain_grid i j.
Proof.
  intros Hd Hout Hi Hj Ht Hp Hdst.
  destruct (decode_inv _ _ _ _ _ _ Hd) as [(Hr & Hc & Hpp & Hdd & _) _].
  destruct (render_grid_steps _ _ _ _ _ _ _ Hd Hout)
    as (o1 & o2 & dloc & Eld & E1 & E2 & E3).
  destruct (locs_nonneg d dloc Hdd Eld) as [Hd1 Hd2].
  unfold cell_of in *. cbn [fst snd] in *.
  assert (Ht1 : 0 <= 1 + row) by lia. assert (Ht2 : 0 <= 2 * col + 1) by lia.
  assert (Hd3 : 0 <= 1 + dloc.1) by lia.
  assert (Hd4 : 0 <= 2 * dloc.2 + 1) by lia.
  rewrite (paint_cell_other _ _ _ _ _ i j Hd3 Hd4 Hi Hj E3)
    by (apply Hdst, Eld).
  transitivity (Py.getitem2 o1 i j).
  - destruct (p <? 4) eqn:Ep; [|subst o2; reflexivity].
    destruct E2 as (ploc & Elp & E2). apply Z.ltb_lt in Ep.
    assert (Hp4 : 0 <= p < 4) by lia.
    destruct (locs_nonneg p ploc Hp4 Elp) as [Hp1 Hp2].
    assert (Hp3 : 0 <= 1 + ploc.1) by lia.
    assert (Hp5 : 0 <= 2 * ploc.2 + 1) by lia.
    apply (paint_cell_other _ _ _ _ _ i j Hp3 Hp5 Hi Hj E2).
    apply Hp; assumption.
  - apply (paint_cell_other _ _ _ _ _ i j Ht1 Ht2 Hi Hj E1).
    exact Ht.
Qed.

(** X17: the destination is painted last: its cell always ends as
    [colorize(x, 'magenta')], where [x] is what the cell held before:
    the map's character, inside the taxi's marker when the taxi stands
    there, and that inside the passenger's marker when the passenger
    waits there. *)
Theorem destination_marker s row col p d f out loc :
  decode s = Ok [row; col; p; d; f] ->
  render_grid colorize s = Ok out ->
  Py.getitem locs d = Ok loc ->
  exists b,
    Py.getitem2 plain_grid (cell_of loc).1 (cell_of loc).2 = Ok b /\
    let taxi :=
      if Py.pair_eqb loc (row, col) then
        (if p <? 4 then colorize b "yellow" false true
         else colorize (ul b) "green" false true)
      else b in
    let pass :=
      if (p <? 4) &&
         Py.pair_eqb loc (value_or (0, 0) (Py.getitem locs p))
      then colorize taxi "blue" true false
      else taxi in
    Py.getitem2 out (cell_of loc).1 (cell_of loc).2 =
    Ok (colorize pass "magenta" false false).
Proof.
  intros Hd Hout Hl.
  destruct (decode_inv _ _ _ _ _ _ Hd) as [(Hr & Hc & Hpp & Hdd & _) _].
  destruct (render_grid_steps _ _ _ _ _ _ _ Hd Hout)
    as (o1 & o2 & dloc & Eld & E1 & E2 & E3).
  rewrite Hl in Eld. injection Eld as <-.
  destruct (locs_nonneg d loc Hdd Hl) as [Hd1 Hd2].
  unfold cell_of. cbn [fst snd]. cbv zeta.
  assert (Ht1 : 0 <= 1 + row) by lia. assert (Ht2 : 0 <= 2 * col + 1) by lia.
  assert (Hd3 : 0 <= 1 + loc.1) by lia.
  assert (Hd4 : 0 <= 2 * loc.2 + 1) by lia.
  destruct (paint_cell_same _ _ _ _ _ Hd3 Hd4 E3) as (x & Hx2 & Hx).
  rewrite Hx. clear Hx E3.
  (* the passenger's painting *)
  assert (Hx1 : exists x1,
             Py.getitem2 o1 (1 + loc.1) (2 * loc.2 + 1) = Ok x1 /\
             x = (if (p <? 4) &&
                     Py.pair_eqb loc (value_or (0, 0) (Py.getitem locs p))
                  then colorize x1 "blue" true false else x1)).
  { destruct (p <? 4) eqn:Ep; cbn [andb]; [|subst o2; eauto].
    destruct E2 as (ploc & Elp & E2). apply Z.ltb_lt in Ep.
    assert (Hp4 : 0 <= p < 4) by lia.
    destruct (locs_nonneg p ploc Hp4 Elp) as [Hp1 Hp2].
    assert (Hp3 : 0 <= 1 + ploc.1) by lia.
    assert (Hp5 : 0 <= 2 * ploc.2 + 1) by lia.
    rewrite Elp. cbn [value_or].
    destruct (Py.pair_eqb loc ploc) eqn:E.
    - apply pair_eqb_eq in E. subst ploc.
      destruct (paint_cell_same _ _ _ _ _ Hp3 Hp5 E2) as (x1 & Hx1 & Hx1').
      exists x1. split; [exact Hx1|]. congruence.
    - exists x. split; [|reflexivity]. rewrite <- Hx2. symmetry.
      apply (paint_cell_other _ _ _ _ _ _ _ Hp3 Hp5 Hd3 Hd4 E2).
      intros E'. injection E' as E1' E2'.
      assert (loc = ploc) as Heq.
      { destruct loc, ploc. cbn [fst snd] in *. f_equal; lia. }
      apply pair_eqb_eq in Heq. congruence. }
  destruct Hx1 as (x1 & Hx1 & ->). clear Hx2 E2.
  (* the taxi's painting *)
  destruct (Py.pair_eqb loc (row, col)) eqn:E.
  - apply pair_eqb_eq in E. subst loc. cbn [fst snd] in *.
    destruct (paint_cell_same _ _ _ _ _ Ht1 Ht2 E1) as (b & Hb & Hb').
    exists b. split; [exact Hb|]. rewrite Hx1 in Hb'. injection Hb' as ->.
    reflexivity.
  - exists x1. split; [|reflexivity]. rewrite <- Hx1. symmetry.
    apply (paint_cell_other _ _ _ _ _ _ _ Ht1 Ht2 Hd3 Hd4 E1).
    intros E'. injection E' as E1' E2'.
    assert (loc = (row, col)) as Heq.
    { destruct loc. cbn [fst snd] in *. f_equal; lia. }
    apply pair_eqb_eq in Heq. congruence.
Qed.

(** X18: where the taxi shares its cell with neither the waiting
    passenger nor the destination, the cell shows the map's character
    highlighted in yellow when the taxi is empty, and in green, with a
    blank replaced by an underscore, when the passenger is aboard. *)
Theorem taxi_marker s row col p d f out :
  decode s = Ok [row; col; p; d; f] ->
  render_grid colorize s = Ok out ->
  (forall loc, p < 4 -> Py.getitem locs p = Ok loc -> loc <> (row, col)) ->
  (forall loc, Py.getitem locs d = Ok loc -> loc <> (row, col)) ->
  exists x,
    Py.getitem2 plain_grid (cell_of (row, col)).1 (cell_of (row, col)).2
    = Ok x /\
    Py.getitem2 out (cell_of (row, col)).1 (cell_of (row, col)).2 =
    Ok (if p <? 4 then colorize x "yellow" false true
        else colorize (ul x) "green" false true).
Proof.
  intros Hd Hout Hp Hdst.
  destruct (decode_inv _ _ _ _ _ _ Hd) as [(Hr & Hc & Hpp & Hdd & _) _].
  destruct (render_grid_steps _ _ _ _ _ _ _ Hd Hout)
    as (o1 & o2 & dloc & Eld & E1 & E2 & E3).
  destruct (locs_nonneg d dloc Hdd Eld) as [Hd1 Hd2].
  unfold cell_of. cbn [fst snd].
  assert (Ht1 : 0 <= 1 + row) by lia. assert (Ht2 : 0 <= 2 * col + 1) by lia.
  assert (Hd3 : 0 <= 1 + dloc.1) by lia.
  assert (Hd4 : 0 <= 2 * dloc.2 + 1) by lia.
  destruct (paint_cell_same _ _ _ _ _ Ht1 Ht2 E1) as (x & Hx0 & Hx1).
  exists x. split; [exact Hx0|].
  rewrite (paint_cell_other _ _ _ _ _ (1 + row) (2 * col + 1)
             Hd3 Hd4 Ht1 Ht2 E3).
  2:{ intros E. apply (Hdst dloc Eld). destruct dloc as [a b].
      cbn [fst snd] in *. injection E as E1' E2'. f_equal; lia. }
  destruct (p <? 4) eqn:Ep; [|subst o2; exact Hx1].
  destruct E2 as (ploc & Elp & E2). apply Z.ltb_lt in Ep.
  assert (Hp4 : 0 <= p < 4) by lia.
  destruct (locs_nonneg p ploc Hp4 Elp) as [Hp1 Hp2].
  assert (Hp3 : 0 <= 1 + ploc.1) by lia.
  assert (Hp5 : 0 <= 2 * ploc.2 + 1) by lia.
  rewrite (paint_cell_other _ _ _ _ _ (1 + row) (2 * col + 1)
             Hp3 Hp5 Ht1 Ht2 E2); [exact Hx1|].
  intros E. apply (Hp ploc Ep Elp). destruct ploc as [a b].
  cbn [fst snd] in *. injection E as E1' E2'. f_equal; lia.
Qed.

End Rendering.

(** Instances, for a [colorize] that marks or returns its argument. *)

Lemma render_rejects_witness :
  render (fun x _ _ _ => x) "" 5500 None human = (""%string, Raise AssertionError).
Proof. apply (render_rejects (fun x _ _ _ => x)). lia. Defined.

Lemma render_modes_witness :
  exists text,
    render (fun x _ _ _ => x) "log" 21 (Some 4) ansi = ("log"%string, Ok (Some text)) /\
    render (fun x _ _ _ => x) "log" 21 (Some 4) human =
      (String.append "log" text, Ok None).
Proof.
  apply (render_modes (fun x _ _ _ => x)); [lia|]. intros a H. injection H as <-. lia.
Defined.

Lemma render_ignores_fuel_witness :
  render (fun x _ _ _ => x) "" (encode 0 0 0 1 0) None ansi =
  render (fun x _ _ _ => x) "" (encode 0 0 0 1 10) None ansi.
Proof. apply (render_ignores_fuel (fun x _ _ _ => x)); unfold valid_state; lia. Defined.

Lemma render_grid_frame_witness :
  Py.getitem2
    (value_or [] (render_grid (fun x _ _ _ => String.append "*" x) 21)) 1 5 =
  Py.getitem2 plain_grid 1 5.
Proof.
  apply (render_grid_frame (fun x _ _ _ => String.append "*" x) 21 0 0 0 1 10).
  - reflexivity.
  - reflexivity.
  - lia.
  - lia.
  - discriminate.
  - intros loc _ H. injection H as <-. discriminate.
  - intros loc H. injection H as <-. discriminate.
Defined.

Lemma destination_marker_witness :
  exists b,
    Py.getitem2 plain_grid (cell_of (0, 4)).1 (cell_of (0, 4)).2 = Ok b /\
    let taxi :=
      if Py.pair_eqb (0, 4) (0, 4) then
        (if 1 <? 4 then String.append "*" b
         else String.append "*" (ul b))
      else b in
    let pass :=
      if (1 <? 4) &&
         Py.pair_eqb (0, 4) (value_or (0, 0) (Py.getitem locs 1))
      then String.append "*" taxi
      else taxi in
    Py.getitem2
      (value_or [] (render_grid (fun x _ _ _ => String.append "*" x) 945))
      (cell_of (0, 4)).1 (cell_of (0, 4)).2 =
    Ok (String.append "*" pass).
Proof.
  apply (destination_marker (fun x _ _ _ => String.append "*" x)
           945 0 4 1 1 10).
  - reflexivity.
  - reflexivity.
  - reflexivity.
Defined.

Lemma taxi_marker_witness :
  exists x,
    Py.getitem2 plain_grid (cell_of (1, 1)).1 (cell_of (1, 1)).2 = Ok x /\
    Py.getitem2
      (value_or [] (render_grid (fun x _ _ _ => String.append "*" x)
                      (encode 1 1 4 1 10)))
      (cell_of (1, 1)).1 (cell_of (1, 1)).2 =
    Ok (if 4 <? 4 then String.append "*" x else String.append "*" (ul x)).
Proof.
  apply (taxi_marker (fun x _ _ _ => String.append "*" x) (encode 1 1 4 1 10) 1 1 4 1 10).
  - reflexivity.
  - reflexivity.
  - intros loc H. lia.
  - intros loc H. injection H as <-. discriminate.
Defined.
